(** * Upload-metadata extractor: lambda_function.py

    A shallow embedding of [lambda_function.py] (the handler, [format_bytes]
    and [is_image]) together with the properties of its specification.

    Conventions of the embedding.
    - A Python [int] is a [Z].  A Python [float] is a [pyfloat], a binary
      fraction [mant * 2^expo]; conversion from [int] and division round to
      the nearest double, ties to even, as IEEE-754 binary64 does.
    - A Python [str] is a [string]; keys are taken to be ASCII.
    - The event is a record with the fields of an upload notification that
      the handler reads; the list of its records may be empty.
    - A [dict] whose order is observable (the metadata record, which is
      serialised by [json.dumps]) is an association list in insertion order.
    - An exception is a value of [exn]; a computation that may raise returns
      [exn + A].  The handler runs in a state-and-exception monad over
      [World], the part of the outside world it can touch.
    - The object store, the image decoder and the file system that
      [os.remove] asks are collaborators: they are parameters of the
      handler, the [Collaborators]. *)

From Stdlib Require Import ZArith Lia List Ascii DecimalString.
From stdpp Require Import base gmap strings.

Open Scope Z_scope.
Import ListNotations.

(** ** Exceptions *)

Inductive exn : Type :=
| IndexError (msg : string)
| KeyError (key : string)
| OverflowError (msg : string)
| FileNotFoundError (path : string)
| PermissionError (path : string)
| ExternalError (msg : string).

(** [str(e)].  [str] of a [KeyError] is the [repr] of the missing key. *)
Definition str_exn (e : exn) : string :=
  match e with
  | IndexError msg => msg
  | KeyError key => "'" +:+ key +:+ "'"
  | OverflowError msg => msg
  | FileNotFoundError path =>
      "[Errno 2] No such file or directory: '" +:+ path +:+ "'"
  | PermissionError path => "[Errno 13] Permission denied: '" +:+ path +:+ "'"
  | ExternalError msg => msg
  end.

Definition result (A : Type) : Type := exn + A.
Abbreviation Ok := (@inr exn _) (only parsing).
Abbreviation Raise := (@inl exn _) (only parsing).

Definition rbind {A B : Type} (r : result A) (k : A -> result B) : result B :=
  match r with
  | inl e => inl e
  | inr a => k a
  end.

(** ** Numbers *)

(** [str(n)] for an [int]. *)
Definition str_int (n : Z) : string := NilZero.string_of_int (Z.to_int n).

(** [a / b] rounded to the nearest integer, ties to even ([b > 0]). *)
Definition div_half_even (a b : Z) : Z :=
  let q := a / b in
  let r := a mod b in
  if 2 * r <? b then q
  else if b <? 2 * r then q + 1
  else if Z.even q then q else q + 1.

Record pyfloat : Type := { mant : Z; expo : Z }.

(** The double nearest to [m * 2^e]: at most 53 bits of mantissa, and no
    exponent below that of the subnormals. *)
Definition round_to_double (m e : Z) : pyfloat :=
  let bits := if m =? 0 then 0 else Z.log2 (Z.abs m) + 1 in
  let shift := Z.max (bits - 53) (-1074 - e) in
  if shift <=? 0 then {| mant := m; expo := e |}
  else {| mant := div_half_even m (2 ^ shift); expo := e + shift |}.

(** [float(n)]. *)
Definition float_of_int (n : Z) : result pyfloat :=
  let f := round_to_double n 0 in
  if 2 ^ 1024 <=? Z.abs (mant f) * 2 ^ expo f
  then Raise (OverflowError "int too large to convert to float")
  else Ok f.

(** [f / 1024.0]: the quotient is smaller than [f], so it cannot overflow. *)
Definition float_div_1024 (f : pyfloat) : pyfloat :=
  round_to_double (mant f) (expo f - 10).

(** [f < k] for an integer [k], exactly. *)
Definition float_ltb (f : pyfloat) (k : Z) : bool :=
  if 0 <=? expo f then mant f * 2 ^ expo f <? k
  else mant f <? k * 2 ^ (- expo f).

(** The value of [f] in hundredths, rounded to the nearest, ties to even. *)
Definition hundredths (f : pyfloat) : Z :=
  if 0 <=? expo f then mant f * 2 ^ expo f * 100
  else div_half_even (mant f * 100) (2 ^ (- expo f)).

Definition digit (d : Z) : string :=
  String (ascii_of_nat (48 + Z.to_nat d)) EmptyString.

(** The text of [h] hundredths: integer part, a point, two digits. *)
Definition show_hundredths (h : Z) : string :=
  str_int (h / 100) +:+ "." +:+ digit (h mod 100 / 10) +:+ digit (h mod 10).

(** [f"{f:.2f}"] for a float. *)
Definition format_float_2f (f : pyfloat) : string :=
  (if mant f <? 0 then "-" else "") +:+ show_hundredths (Z.abs (hundredths f)).

(** The variable [size] of [format_bytes] is an [int] on entry and a [float]
    after the first division. *)
Inductive number : Type :=
| Int (n : Z)
| Float (f : pyfloat).

(** [size < 1024.0]; Python compares an [int] with a [float] exactly. *)
Definition lt_1024 (size : number) : bool :=
  match size with
  | Int n => n <? 1024
  | Float f => float_ltb f 1024
  end.

(** [size / 1024.0]; an [int] operand is converted to [float] first. *)
Definition div_1024 (size : number) : result number :=
  match size with
  | Int n => rbind (float_of_int n) (fun f => Ok (Float (float_div_1024 f)))
  | Float f => Ok (Float (float_div_1024 f))
  end.

(** [f"{size:.2f}"]; an [int] is converted to [float] first. *)
Definition format_2f (size : number) : result string :=
  match size with
  | Int n => rbind (float_of_int n) (fun f => Ok (format_float_2f f))
  | Float f => Ok (format_float_2f f)
  end.

(** ** format_bytes *)

(** The [for] loop of [format_bytes] over the remaining units; after the
    last unit the function falls through to the [PB] line. *)
Fixpoint format_bytes_loop (units : list string) (size : number)
  : result string :=
  match units with
  | [] => rbind (format_2f size) (fun s => Ok (s +:+ " PB"))
  | unit :: rest =>
      if lt_1024 size
      then rbind (format_2f size) (fun s => Ok (s +:+ " " +:+ unit))
      else rbind (div_1024 size) (format_bytes_loop rest)
  end.

Definition format_bytes (size : Z) : result string :=
  format_bytes_loop ["B"; "KB"; "MB"; "GB"; "TB"] (Int size).

(** ** Strings *)

Definition lower_char (c : ascii) : ascii :=
  let n := nat_of_ascii c in
  if ((65 <=? n) && (n <=? 90))%nat then ascii_of_nat (n + 32) else c.

(** [s.lower()]. *)
Fixpoint lower (s : string) : string :=
  match s with
  | EmptyString => EmptyString
  | String c rest => String (lower_char c) (lower rest)
  end.

(** [s.endswith(suffix)]: some tail of [s] is [suffix]. *)
Fixpoint endswith (s suffix : string) : bool :=
  if String.eqb s suffix then true
  else match s with
       | EmptyString => false
       | String _ rest => endswith rest suffix
       end.

Fixpoint rfind_from (s : string) (c : ascii) (i last : Z) : Z :=
  match s with
  | EmptyString => last
  | String d rest => rfind_from rest c (i + 1) (if Ascii.eqb d c then i else last)
  end.

(** [s.rfind(c)]: the index of the last [c] in [s], or [-1]. *)
Definition rfind (s : string) (c : ascii) : Z := rfind_from s c 0 (-1).

(** [s[i:j]], [s[:j]] and [s[i:]] for indices that are not negative. *)
Definition slice (s : string) (i j : Z) : string :=
  String.substring (Z.to_nat i) (Z.to_nat (j - i)) s.
Definition slice_to (s : string) (j : Z) : string := slice s 0 j.
Definition slice_from (s : string) (i : Z) : string :=
  slice s i (Z.of_nat (String.length s)).

Fixpoint all_dots (s : string) : bool :=
  match s with
  | EmptyString => true
  | String c rest => Ascii.eqb c "." && all_dots rest
  end.

(** ** os.path (posixpath) *)

Module os_path.

(** [os.path.basename(p)]: what follows the last slash. *)
Definition basename (p : string) : string :=
  slice_from p (rfind p "/" + 1).

(** [os.path.splitext(p)]: split at the last dot of the last component,
    unless that component has nothing but dots before it. *)
Definition splitext (p : string) : string * string :=
  let sepIndex := rfind p "/" in
  let dotIndex := rfind p "." in
  if sepIndex <? dotIndex then
    if all_dots (slice p (sepIndex + 1) dotIndex) then (p, EmptyString)
    else (slice_to p dotIndex, slice_from p dotIndex)
  else (p, EmptyString).

End os_path.

(** ** is_image *)

Definition image_extensions : list string :=
  [".jpg"; ".jpeg"; ".png"; ".gif"; ".bmp"; ".webp"].

Definition is_image (filename : string) : bool :=
  existsb (fun ext => endswith (lower filename) ext) image_extensions.

(** ** json.dumps *)

#[warnings="-register-all"]
Inductive json : Type :=
| JNull
| JInt (n : Z)
| JStr (s : string)
| JObj (items : list (string * json)).

(** A [dict] with [str] keys, in insertion order. *)
Definition dict : Type := list (string * json).

(** [d[k] = v]: replace the value of an existing key in place, or append. *)
Fixpoint dict_set (d : dict) (k : string) (v : json) : dict :=
  match d with
  | [] => [(k, v)]
  | (k', v') :: rest =>
      if String.eqb k' k then (k, v) :: rest else (k', v') :: dict_set rest k v
  end.

(** [d.get(k)]. *)
Fixpoint dict_get (d : dict) (k : string) : option json :=
  match d with
  | [] => None
  | (k', v) :: rest => if String.eqb k' k then Some v else dict_get rest k
  end.

Definition newline : string := String (ascii_of_nat 10) EmptyString.
Definition backslash : string := String (ascii_of_nat 92) EmptyString.
Definition double_quote : string := String (ascii_of_nat 34) EmptyString.

Definition hex_digit (n : nat) : string :=
  String.substring n 1 "0123456789abcdef".

(** One character of a [str] inside a JSON string ([ensure_ascii=True]). *)
Definition json_escape_char (c : ascii) : string :=
  let n := nat_of_ascii c in
  if (n =? 34)%nat then backslash +:+ String c EmptyString
  else if (n =? 92)%nat then backslash +:+ String c EmptyString
  else if (n =? 10)%nat then backslash +:+ "n"
  else if (n =? 13)%nat then backslash +:+ "r"
  else if (n =? 9)%nat then backslash +:+ "t"
  else if (n =? 8)%nat then backslash +:+ "b"
  else if (n =? 12)%nat then backslash +:+ "f"
  else if ((32 <=? n) && (n <=? 126))%nat then String c EmptyString
  else backslash +:+ "u00" +:+ hex_digit (n / 16) +:+ hex_digit (n mod 16).

Fixpoint json_escape (s : string) : string :=
  match s with
  | EmptyString => EmptyString
  | String c rest => json_escape_char c +:+ json_escape rest
  end.

Definition json_string (s : string) : string :=
  double_quote +:+ json_escape s +:+ double_quote.

Fixpoint spaces (n : nat) : string :=
  match n with
  | O => EmptyString
  | S n' => String " " (spaces n')
  end.

(** What [json.dumps] puts before an item ([level] is its nesting depth):
    nothing without [indent], a line break and the indentation with it. *)
Definition json_break (indent : option nat) (level : nat) : string :=
  match indent with
  | None => EmptyString
  | Some width => newline +:+ spaces (width * level)
  end.

(** The separator between items: [", "] without [indent], [","] with it. *)
Definition json_item_separator (indent : option nat) : string :=
  match indent with
  | None => ", "
  | Some _ => ","
  end.

Fixpoint json_encode (indent : option nat) (level : nat) (v : json) : string :=
  match v with
  | JNull => "null"
  | JInt n => str_int n
  | JStr s => json_string s
  | JObj [] => "{}"
  | JObj ((k0, v0) :: rest) =>
      let item (k : string) (x : json) : string :=
        json_break indent (S level) +:+ json_string k +:+ ": "
        +:+ json_encode indent (S level) x in
      "{" +:+ item k0 v0
      +:+ (fix items (l : list (string * json)) : string :=
             match l with
             | [] => EmptyString
             | (k, x) :: l' => json_item_separator indent +:+ item k x +:+ items l'
             end) rest
      +:+ json_break indent level +:+ "}"
  end.

(** [json.dumps(v)] and [json.dumps(v, indent=2)]. *)
Definition json_dumps (v : json) : string := json_encode None 0 v.
Definition json_dumps_indent (v : json) (indent : nat) : string :=
  json_encode (Some indent) 0 v.

(** ** The event, the collaborators and the world *)

(** The upload notification, with the fields the handler reads:
    [event['Records'][i]['s3']['bucket']['name']] and so on. *)
Module S3Event.
Record BucketEntity : Type := { name : string }.
Record ObjectEntity : Type := { key : string; size : Z }.
Record S3Entity : Type := { bucket : BucketEntity; object : ObjectEntity }.
Record EventRecord : Type := { s3 : S3Entity }.
Record Event : Type := { Records : list EventRecord }.
End S3Event.

(** A [datetime] is used through [isoformat()] only. *)
Record datetime : Type := { isoformat : string }.

(** The [dict] that [head_object] returns, with the keys the handler reads;
    [None] is an absent key. *)
Record HeadResponse : Type := {
  ContentType : option string;
  LastModified : option datetime;
  ETag : option string
}.

(** What the handler reads of an image that PIL has opened. *)
Module PIL.
Record Image : Type := {
  width : Z;
  height : Z;
  format : option string;
  mode : string
}.
End PIL.

(** The collaborators: the object store behind [s3_client], whose state is a
    [Store]; the decoder behind [Image.open], a function of the file's path
    and content; and the file system behind [os.remove], which lets a file
    that is there be removed or does not.  Each call returns its value or
    the exception it raises. *)
Record Collaborators : Type := {
  Store : Type;
  head_object : Store -> string -> string -> result HeadResponse;
  get_object : Store -> string -> string -> result string;
  put_object : Store -> string -> string -> string -> string -> result Store;
  image_open : string -> string -> result PIL.Image;
  unlink : string -> result unit
}.

(** The calls the handler makes, with their arguments. *)
Inductive Call : Type :=
| HeadObject (Bucket Key : string)
| DownloadFile (Bucket Key Filename : string)
| ImageOpen (fp : string)
| OsRemove (path : string)
| PutObject (Bucket Key Body ContentType : string).

(** The handler's return value, [{'statusCode': ..., 'body': ...}]. *)
Record Response : Type := { statusCode : Z; body : string }.

Section Handler.

Context (svc : Collaborators).

(** What an invocation can read and change: the object store, the scratch
    files by path, the clock, the standard output and, for the record, the
    calls made so far. *)
Record World : Type := {
  store : Store svc;
  files : gmap string string;
  utcnow : datetime;
  stdout : list string;
  calls : list Call
}.

Definition log (c : Call) (w : World) : World :=
  {| store := store w; files := files w; utcnow := utcnow w;
     stdout := stdout w; calls := calls w ++ [c] |}.

Definition set_files (fs : gmap string string) (w : World) : World :=
  {| store := store w; files := fs; utcnow := utcnow w;
     stdout := stdout w; calls := calls w |}.

Definition set_store (st : Store svc) (w : World) : World :=
  {| store := st; files := files w; utcnow := utcnow w;
     stdout := stdout w; calls := calls w |}.

(** A computation: it returns or raises, and leaves a world behind. *)
Definition M (A : Type) : Type := World -> result A * World.

Definition ret {A : Type} (a : A) : M A := fun w => (Ok a, w).
Definition lift {A : Type} (r : result A) : M A := fun w => (r, w).

Definition bind {A B : Type} (m : M A) (k : A -> M B) : M B :=
  fun w =>
    match m w with
    | (inl e, w') => (inl e, w')
    | (inr a, w') => k a w'
    end.

(** [try: m except Exception as e: handler e]; what [m] did before it
    raised stays done. *)
Definition try_except {A : Type} (m : M A) (handler : exn -> M A) : M A :=
  fun w =>
    match m w with
    | (inl e, w') => handler e w'
    | (inr a, w') => (inr a, w')
    end.

Definition write_line (line : string) (w : World) : World :=
  {| store := store w; files := files w; utcnow := utcnow w;
     stdout := stdout w ++ [line]; calls := calls w |}.

(** [print(line)]. *)
Definition print (line : string) : M unit :=
  fun w => (Ok tt, write_line line w).

(** [datetime.utcnow()]. *)
Definition datetime_utcnow : M datetime := fun w => (Ok (utcnow w), w).

(** [s3_client.head_object(Bucket=..., Key=...)]. *)
Definition s3_head_object (Bucket Key : string) : M HeadResponse :=
  fun w => (head_object svc (store w) Bucket Key, log (HeadObject Bucket Key) w).

(** [s3_client.download_file(Bucket, Key, Filename)]: the object's bytes
    become the content of the file [Filename]. *)
Definition s3_download_file (Bucket Key Filename : string) : M unit :=
  fun w =>
    let w1 := log (DownloadFile Bucket Key Filename) w in
    match get_object svc (store w) Bucket Key with
    | inl e => (inl e, w1)
    | inr content => (Ok tt, set_files (<[Filename := content]> (files w1)) w1)
    end.

(** [Image.open(fp)] (with the import of PIL before it). *)
Definition Image_open (fp : string) : M PIL.Image :=
  fun w =>
    let w1 := log (ImageOpen fp) w in
    match files w !! fp with
    | None => (Raise (FileNotFoundError fp), w1)
    | Some content => (image_open svc fp content, w1)
    end.

(** [os.remove(path)]: it raises when the file is not there, and when the
    file system does not let it go; the file stays then. *)
Definition os_remove (path : string) : M unit :=
  fun w =>
    let w1 := log (OsRemove path) w in
    match files w !! path with
    | None => (Raise (FileNotFoundError path), w1)
    | Some _ =>
        match unlink svc path with
        | inl e => (inl e, w1)
        | inr _ => (Ok tt, set_files (delete path (files w1)) w1)
        end
    end.

(** [s3_client.put_object(Bucket=..., Key=..., Body=..., ContentType=...)]. *)
Definition s3_put_object (Bucket Key Body ContentType : string) : M unit :=
  fun w =>
    let w1 := log (PutObject Bucket Key Body ContentType) w in
    match put_object svc (store w) Bucket Key Body ContentType with
    | inl e => (inl e, w1)
    | inr st => (Ok tt, set_store st w1)
    end.

#[local] Instance M_ret : MRet M := @ret.
#[local] Instance M_bind : MBind M := fun A B k m => bind m k.

(** [records[0]]. *)
Definition first_record (records : list S3Event.EventRecord)
  : result S3Event.EventRecord :=
  match records with
  | [] => Raise (IndexError "list index out of range")
  | record :: _ => Ok record
  end.

(** [response[key]] for a key of the head response that may be absent. *)
Definition getitem {A : Type} (key : string) (value : option A) : result A :=
  match value with
  | None => Raise (KeyError key)
  | Some a => Ok a
  end.

(** [response.get(key, default)]. *)
Definition get_default {A : Type} (value : option A) (default : A) : A :=
  match value with
  | None => default
  | Some a => a
  end.

Definition json_of_option (value : option string) : json :=
  match value with
  | None => JNull
  | Some s => JStr s
  end.

(** Lines 41-59, the [try] statement of the image sub-step.  [metadata] is
    changed in place, so the [except] clause adds [imageError] to the
    record as the body left it: to the record without image fields when
    the download or [Image.open] raised, to the record with them when
    [os.remove] raised. *)
Definition image_step (bucket_name file_key : string) (metadata : dict)
  : M dict :=
  let except (metadata : dict) (img_error : exn) : M dict :=
    print ("Could not extract image dimensions: " +:+ str_exn img_error);;
    mret (dict_set metadata "imageError" (JStr (str_exn img_error))) in
  let download_path := "/tmp/" +:+ os_path.basename file_key in
  try_except
    (s3_download_file bucket_name file_key download_path;;
     img ← Image_open download_path;
     let metadata := dict_set metadata "imageWidth" (JInt (PIL.width img)) in
     let metadata := dict_set metadata "imageHeight" (JInt (PIL.height img)) in
     let metadata := dict_set metadata "imageFormat" (json_of_option (PIL.format img)) in
     let metadata := dict_set metadata "imageMode" (JStr (PIL.mode img)) in
     try_except (os_remove download_path;; mret metadata) (except metadata))
    (except metadata).

(** Lines 27-37, the [dict] literal, once its values are known. *)
Definition new_metadata (file_key bucket_name : string) (file_size : Z)
    (fileSizeReadable contentType lastModified etag uploadTime : string)
  : dict :=
  [ ("fileName", JStr file_key);
    ("bucketName", JStr bucket_name);
    ("fileSize", JInt file_size);
    ("fileSizeReadable", JStr fileSizeReadable);
    ("contentType", JStr contentType);
    ("lastModified", JStr lastModified);
    ("etag", JStr etag);
    ("uploadTime", JStr uploadTime);
    ("processedBy", JStr "AWS Lambda") ].

(** Lines 17-59: the record as it stands before it is saved, with the
    bucket and the key it was built for.  The values of the [dict] literal
    are evaluated in the order they are written. *)
Definition build_metadata (event : S3Event.Event)
  : M (string * string * dict) :=
  record ← lift (first_record (S3Event.Records event));
  let bucket_name := S3Event.name (S3Event.bucket (S3Event.s3 record)) in
  let file_key := S3Event.key (S3Event.object (S3Event.s3 record)) in
  let file_size := S3Event.size (S3Event.object (S3Event.s3 record)) in
  print ("Processing file: " +:+ file_key +:+ " from bucket: " +:+ bucket_name);;
  response ← s3_head_object bucket_name file_key;
  fileSizeReadable ← lift (format_bytes file_size);
  let contentType := get_default (ContentType response) "unknown" in
  lastModified ← lift (getitem "LastModified" (LastModified response));
  etag ← lift (getitem "ETag" (ETag response));
  now ← datetime_utcnow;
  let metadata :=
    new_metadata file_key bucket_name file_size fileSizeReadable contentType
      (isoformat lastModified) etag (isoformat now) in
  metadata ← (if is_image file_key
              then image_step bucket_name file_key metadata
              else mret metadata);
  mret (bucket_name, file_key, metadata).

(** Line 62. *)
Definition metadata_key_of (file_key : string) : string :=
  "metadata/" +:+ fst (os_path.splitext file_key) +:+ "_metadata.json".

(** Lines 61-78: save the record and answer. *)
Definition save_metadata (bucket_name file_key : string) (metadata : dict)
  : M Response :=
  let metadata_key := metadata_key_of file_key in
  s3_put_object bucket_name metadata_key
    (json_dumps_indent (JObj metadata) 2) "application/json";;
  print ("Metadata saved to: " +:+ metadata_key);;
  mret {| statusCode := 200;
          body := json_dumps
                    (JObj [ ("message", JStr "File processed successfully");
                            ("metadata", JObj metadata) ]) |}.

(** Lines 80-88, the outer [except] clause; it cannot raise. *)
Definition error_response (e : exn) (w : World) : Response * World :=
  ({| statusCode := 500;
      body := json_dumps
                (JObj [ ("message", JStr "Error processing file");
                        ("error", JStr (str_exn e)) ]) |},
   write_line ("Error processing file: " +:+ str_exn e) w).

(** [lambda_handler(event, context)]; [context] is not used.  The handler
    never raises: it returns its response and the world it leaves. *)
Definition lambda_handler (event : S3Event.Event) (w : World)
  : Response * World :=
  match ('(bucket_name, file_key, metadata) ← build_metadata event;
         save_metadata bucket_name file_key metadata) w with
  | (inr response, w') => (response, w')
  | (inl e, w') => error_response e w'
  end.

(** The calls made between the world [w] and a later world [w']. *)
Definition new_calls (w w' : World) : list Call :=
  drop (length (calls w)) (calls w').

End Handler.

Arguments store {svc} _.
Arguments files {svc} _.
Arguments utcnow {svc} _.
Arguments stdout {svc} _.
Arguments calls {svc} _.
Arguments new_calls {svc} _ _.

(** ** A store in memory

    An object store that keeps its objects in a finite map and fails on a
    missing key only, and a decoder that knows a single picture; [service]
    has a file system that lets every file go, [sticky] one that lets none
    go. *)
Module Memory.

Record S3Object : Type := { Body : string; Head : HeadResponse }.

Definition not_found (operation : string) : exn :=
  ExternalError ("An error occurred (404) when calling the " +:+ operation
                 +:+ " operation: Not Found").

Definition sample_png : string := "PNG 640x480 RGB".

Definition put (st : gmap (string * string) S3Object)
    (Bucket Key Content Type_ : string) : gmap (string * string) S3Object :=
  <[(Bucket, Key) :=
      {| Body := Content;
         Head := {| ContentType := Some Type_;
                    LastModified := Some {| isoformat := "2024-05-01T12:00:00+00:00" |};
                    ETag := Some "etag-of-metadata" |} |}]> st.

Definition make (remove : string -> result unit) : Collaborators := {|
  Store := gmap (string * string) S3Object;
  head_object st Bucket Key :=
    match st !! (Bucket, Key) with
    | Some o => Ok (Head o)
    | None => Raise (not_found "HeadObject")
    end;
  get_object st Bucket Key :=
    match st !! (Bucket, Key) with
    | Some o => Ok (Body o)
    | None => Raise (not_found "GetObject")
    end;
  put_object st Bucket Key Content Type_ := Ok (put st Bucket Key Content Type_);
  image_open fp content :=
    if String.eqb content sample_png
    then Ok {| PIL.width := 640; PIL.height := 480;
               PIL.format := Some "PNG"; PIL.mode := "RGB" |}
    else Raise (ExternalError ("cannot identify image file '" +:+ fp +:+ "'"));
  unlink := remove
|}.

Definition service : Collaborators := make (fun _ => Ok tt).

Definition uploaded (content : string) (content_type : option string)
  : S3Object :=
  {| Body := content;
     Head := {| ContentType := content_type;
                LastModified := Some {| isoformat := "2024-04-30T09:15:00+00:00" |};
                ETag := Some "0123456789abcdef" |} |}.

Definition world (objects : gmap (string * string) S3Object) : World service :=
  {| store := (objects : Store service); files := ∅;
     utcnow := {| isoformat := "2024-05-01T12:00:00.000123" |};
     stdout := []; calls := [] |}.

Definition record (bucket_name file_key : string) (file_size : Z)
  : S3Event.EventRecord :=
  {| S3Event.s3 :=
       {| S3Event.bucket := {| S3Event.name := bucket_name |};
          S3Event.object := {| S3Event.key := file_key;
                               S3Event.size := file_size |} |} |}.


Definition report : S3Event.EventRecord := record "uploads" "docs/report.pdf" 2048.
Definition cat : S3Event.EventRecord := record "uploads" "photos/cat.jpg" 15.

Definition with_report : World service :=
  world {[ ("uploads", "docs/report.pdf")
           := uploaded "%PDF-1.7" (Some "application/pdf") ]}.
Definition with_cat : World service :=
  world {[ ("uploads", "photos/cat.jpg") := uploaded sample_png None ]}.
Definition with_broken_cat : World service :=
  world {[ ("uploads", "photos/cat.jpg") := uploaded "not a picture" None ]}.
Definition without_dates : World service :=
  world {[ ("uploads", "docs/report.pdf")
           := {| Body := "%PDF-1.7";
                 Head := {| ContentType := Some "application/pdf";
                            LastModified := None;
                            ETag := Some "0123456789abcdef" |} |} ]}.
Definition empty : World service := world ∅.


End Memory.

(** ** Names for the statements *)

(** The world after the first [print] and the head lookup. *)
Definition after_head (svc : Collaborators) (bucket_name file_key : string)
    (w : World svc) : World svc :=
  log svc (HeadObject bucket_name file_key)
    (write_line svc
       ("Processing file: " +:+ file_key +:+ " from bucket: " +:+ bucket_name) w).

(** The fields of a record of the event, as the handler reads them. *)
Definition record_bucket (record : S3Event.EventRecord) : string :=
  S3Event.name (S3Event.bucket (S3Event.s3 record)).
Definition record_key (record : S3Event.EventRecord) : string :=
  S3Event.key (S3Event.object (S3Event.s3 record)).
Definition record_size (record : S3Event.EventRecord) : Z :=
  S3Event.size (S3Event.object (S3Event.s3 record)).

(** An event with [record] first. *)
Definition event_of (record : S3Event.EventRecord)
    (rest : list S3Event.EventRecord) : S3Event.Event :=
  {| S3Event.Records := record :: rest |}.

(** The body of the success response for the record [metadata]. *)
Definition success_body (metadata : dict) : string :=
  json_dumps (JObj [ ("message", JStr "File processed successfully");
                     ("metadata", JObj metadata) ]).





(** The record with the four image fields of [img]. *)
Definition with_image_fields (metadata : dict) (img : PIL.Image) : dict :=
  dict_set
    (dict_set
       (dict_set
          (dict_set metadata "imageWidth" (JInt (PIL.width img)))
          "imageHeight" (JInt (PIL.height img)))
       "imageFormat" (json_of_option (PIL.format img)))
    "imageMode" (JStr (PIL.mode img)).

(** The record after the image sub-step, given what the download returned. *)
Definition image_result (svc : Collaborators) (download_path : string)
    (fetched : result string) (metadata : dict) : dict :=
  match fetched with
  | inl img_error => dict_set metadata "imageError" (JStr (str_exn img_error))
  | inr content =>
      match image_open svc download_path content with
      | inl img_error => dict_set metadata "imageError" (JStr (str_exn img_error))
      | inr img =>
          match unlink svc download_path with
          | inl img_error =>
              dict_set (with_image_fields metadata img) "imageError"
                (JStr (str_exn img_error))
          | inr _ => with_image_fields metadata img
          end
      end
  end.

(** The record as it is saved, given the record of lines 27-37. *)
Definition finished_metadata (svc : Collaborators) (st : Store svc)
    (bucket_name file_key : string) (metadata : dict) : dict :=
  if is_image file_key
  then image_result svc ("/tmp/" +:+ os_path.basename file_key)
         (get_object svc st bucket_name file_key) metadata
  else metadata.


(** [c in s], for a character [c]. *)
Fixpoint occurs (c : ascii) (s : string) : bool :=
  match s with
  | EmptyString => false
  | String d rest => Ascii.eqb d c || occurs c rest
  end.

(** The loop on exact floats: [i] divisions done, [units] left. *)
Fixpoint exact_loop (units : list string) (n i : Z) : string :=
  match units with
  | [] => show_hundredths (div_half_even (n * 100) (2 ^ i)) +:+ " PB"
  | unit :: rest =>
      if n <? 1024 * 2 ^ i
      then show_hundredths (div_half_even (n * 100) (2 ^ i)) +:+ " " +:+ unit
      else exact_loop rest n (i + 10)
  end.

(** * Properties *)

(** ** Rounding and formatting *)

Section Rounding.

Variables a b : Z.
Hypothesis b_pos : 0 < b.

Lemma div_half_even_floor : a / b <= div_half_even a b <= a / b + 1.
Proof.
  unfold div_half_even.
  destruct (2 * (a mod b) <? b); [lia|].
  destruct (b <? 2 * (a mod b)); [lia|].
  destruct (Z.even (a / b)); lia.
Qed.

Lemma div_half_even_nonneg : 0 <= a -> 0 <= div_half_even a b.
Proof.
  intros Ha. pose proof div_half_even_floor.
  pose proof (Z.div_pos a b Ha b_pos). lia.
Qed.

Lemma div_half_even_below (k : Z) : a < k * b -> div_half_even a b <= k.
Proof.
  intros Hlt. pose proof div_half_even_floor.
  assert (a / b < k) by (apply Z.div_lt_upper_bound; lia).
  lia.
Qed.

End Rounding.

Lemma round_to_double_nonneg (m e : Z) :
  0 <= m -> 0 <= mant (round_to_double m e).
Proof.
  intros Hm. unfold round_to_double. cbv zeta.
  destruct (Z.leb_spec (Z.max ((if m =? 0 then 0 else Z.log2 (Z.abs m) + 1) - 53)
                              (-1074 - e)) 0) as [Hs|Hs];
    cbn [mant]; [exact Hm|].
  apply div_half_even_nonneg; [|exact Hm].
  apply Z.pow_pos_nonneg; lia.
Qed.

Lemma hundredths_nonneg (f : pyfloat) : 0 <= mant f -> 0 <= hundredths f.
Proof.
  intros Hm. unfold hundredths.
  destruct (Z.leb_spec 0 (expo f)).
  - assert (0 <= 2 ^ expo f) by (apply Z.pow_nonneg; lia). nia.
  - apply div_half_even_nonneg; [apply Z.pow_pos_nonneg|]; lia.
Qed.

Lemma hundredths_below_1024 (f : pyfloat) :
  float_ltb f 1024 = true -> hundredths f <= 102400.
Proof.
  unfold float_ltb, hundredths.
  destruct (Z.leb_spec 0 (expo f)); intros Hlt%Z.ltb_lt.
  - lia.
  - apply div_half_even_below; [apply Z.pow_pos_nonneg|]; lia.
Qed.

Lemma format_float_2f_nonneg (f : pyfloat) :
  0 <= mant f -> format_float_2f f = show_hundredths (hundredths f).
Proof.
  intros Hm. unfold format_float_2f.
  destruct (Z.ltb_spec (mant f) 0); [lia|].
  rewrite Z.abs_eq by (apply hundredths_nonneg; exact Hm).
  reflexivity.
Qed.

Lemma float_of_int_ok (n : Z) :
  0 <= n < 2 ^ 1024 - 2 ^ 970 ->
  exists f, float_of_int n = Ok f /\ 0 <= mant f.
Proof.
  intros [Hn0 Hn].
  exists (round_to_double n 0). split; [|apply round_to_double_nonneg; exact Hn0].
  unfold float_of_int. cbv zeta.
  destruct (Z.leb_spec (2 ^ 1024)
              (Z.abs (mant (round_to_double n 0)) * 2 ^ expo (round_to_double n 0)))
    as [Hover|]; [exfalso|reflexivity].
  revert Hover. unfold round_to_double. cbv zeta.
  destruct (Z.eqb_spec n 0) as [->|Hnz].
  { replace (Z.max (0 - 53) (-1074 - 0) <=? 0) with true by reflexivity.
    cbn [mant expo]. change (Z.abs 0 * 2 ^ 0) with 0.
    assert (0 < 2 ^ 1024) by (apply Z.pow_pos_nonneg; lia). lia. }
  rewrite (Z.abs_eq n) by exact Hn0.
  assert (Hpos : 0 < n) by lia.
  pose proof (Z.log2_spec n Hpos) as [Hlo Hhi].
  pose proof (Z.log2_nonneg n) as HL.
  set (L := Z.log2 n) in *.
  assert (HL1023 : L <= 1023).
  { destruct (Z.le_gt_cases L 1023) as [|Hgt]; [assumption|exfalso].
    assert (2 ^ 1024 <= 2 ^ L) by (apply Z.pow_le_mono_r; lia).
    assert (0 < 2 ^ 970) by (apply Z.pow_pos_nonneg; lia). lia. }
  destruct (Z.leb_spec (Z.max (L + 1 - 53) (-1074 - 0)) 0) as [Hs|Hs]; cbn [mant expo].
  { rewrite Z.abs_eq by exact Hn0. change (2 ^ 0) with 1.
    assert (0 < 2 ^ 970) by (apply Z.pow_pos_nonneg; lia). lia. }
  replace (Z.max (L + 1 - 53) (-1074 - 0)) with (L - 52) in * by lia.
  replace (0 + (L - 52)) with (L - 52) by lia.
  set (s := L - 52) in *.
  assert (Hb : 0 < 2 ^ s) by (apply Z.pow_pos_nonneg; lia).
  assert (Hhi' : n < 2 ^ 53 * 2 ^ s).
  { rewrite <- Z.pow_add_r by lia. replace (53 + s) with (Z.succ L) by lia. exact Hhi. }
  pose proof (div_half_even_floor n (2 ^ s)) as [Hfl Hce].
  assert (Hq : n / 2 ^ s < 2 ^ 53) by (apply Z.div_lt_upper_bound; lia).
  assert (Hq0 : 0 <= n / 2 ^ s) by (apply Z.div_pos; lia).
  rewrite Z.abs_eq by lia.
  intros Hover.
  destruct (Z.le_gt_cases s 970) as [Hsmall|Hbig].
  - assert (2 ^ s <= 2 ^ 970) by (apply Z.pow_le_mono_r; lia).
    assert (div_half_even n (2 ^ s) * 2 ^ s <= 2 ^ 53 * 2 ^ 970) by nia.
    replace (2 ^ 53 * 2 ^ 970) with (2 ^ 1023) in * by (rewrite <- Z.pow_add_r by lia; reflexivity).
    assert (2 ^ 1023 < 2 ^ 1024) by (apply Z.pow_lt_mono_r; lia).
    lia.
  - assert (s = 971) by lia. subst s.
    replace (L - 52) with 971 in * by lia.
    assert (E1 : 2 ^ 1024 = 2 ^ 53 * 2 ^ 971) by (rewrite <- Z.pow_add_r by lia; reflexivity).
    assert (E2 : 2 ^ 971 = 2 * 2 ^ 970) by (change 971 with (Z.succ 970); apply Z.pow_succ_r; lia).
    pose proof (Z.div_mod n (2 ^ 971) ltac:(lia)) as Hdm.
    pose proof (Z.mod_pos_bound n (2 ^ 971) Hb) as Hr.
    revert Hover. unfold div_half_even.
    destruct (Z.ltb_spec (2 * (n mod 2 ^ 971)) (2 ^ 971)) as [Hlow|Hup].
    + nia.
    + assert (n / 2 ^ 971 + 1 < 2 ^ 53) by nia.
      destruct (2 ^ 971 <? 2 * (n mod 2 ^ 971)); [|destruct (Z.even (n / 2 ^ 971))]; nia.
Qed.

Lemma float_of_int_exact (n : Z) :
  0 <= n < 2 ^ 53 -> float_of_int n = Ok {| mant := n; expo := 0 |}.
Proof.
  intros [Hn0 Hn].
  assert (Hround : round_to_double n 0 = {| mant := n; expo := 0 |}).
  { unfold round_to_double. cbv zeta.
    destruct (Z.eqb_spec n 0) as [->|Hnz]; [reflexivity|].
    rewrite Z.abs_eq by exact Hn0.
    assert (Z.log2 n < 53) by (apply Z.log2_lt_pow2; lia).
    destruct (Z.leb_spec (Z.max (Z.log2 n + 1 - 53) (-1074 - 0)) 0); [reflexivity|lia]. }
  unfold float_of_int. cbv zeta. rewrite Hround. cbn [mant expo].
  change (2 ^ 0) with 1. rewrite Z.abs_eq by exact Hn0.
  assert (2 ^ 53 < 2 ^ 1024) by (apply Z.pow_lt_mono_r; lia).
  destruct (Z.leb_spec (2 ^ 1024) (n * 1)); [lia|reflexivity].
Qed.

(** What the loop returns once [size] is a float that is not negative: the
    text of some float [f'], below 1024 unless the unit is the last one. *)
Lemma format_bytes_loop_float (units : list string) (f : pyfloat) :
  0 <= mant f ->
  exists f' unit,
    format_bytes_loop units (Float f)
      = Ok (show_hundredths (hundredths f') +:+ " " +:+ unit)
    /\ 0 <= mant f'
    /\ (In unit units /\ float_ltb f' 1024 = true \/ unit = "PB").
Proof.
  revert f. induction units as [|unit rest IH]; intros f Hf.
  - exists f, "PB". cbn. rewrite format_float_2f_nonneg by exact Hf. auto.
  - cbn [format_bytes_loop lt_1024 format_2f div_1024 rbind].
    destruct (float_ltb f 1024) eqn:Hlt.
    + exists f, unit. rewrite format_float_2f_nonneg by exact Hf.
      split; [reflexivity|]. split; [exact Hf|]. left. split; [left; reflexivity|exact Hlt].
    + destruct (IH (float_div_1024 f)) as (f' & u & Hrun & Hf' & Hu).
      { apply round_to_double_nonneg. exact Hf. }
      exists f', u. split; [exact Hrun|]. split; [exact Hf'|].
      destruct Hu as [[Hin Hlt']|Hpb]; [left; split; [right; exact Hin|exact Hlt']|right; exact Hpb].
Qed.

(** ** C1: the readable size *)

(** The claim as it is written fails twice.  A size just below a power of
    1024 is printed as 1024.00 of the smaller unit, because the comparison
    with 1024 comes before the rounding to two decimals; and a size too
    large for a float makes the first division raise. *)
Lemma format_bytes_prints_1024 :
  format_bytes 1048575 = Ok "1024.00 KB"
  /\ hundredths (float_div_1024 {| mant := 1048575; expo := 0 |}) = 102400
  /\ format_bytes (2 ^ 1024)
     = Raise (OverflowError "int too large to convert to float").
Proof. repeat split; vm_compute; reflexivity. Qed.

(** C1 (amended).  For every size from 0 up to the largest that converts to
    a float, [format_bytes] returns the text of a number with two decimals,
    a space and a unit among B, KB, MB, GB, TB and PB; unless the unit is PB,
    the number is a float below 1024 before it is rounded, so what is printed
    is at most 1024.00.  The five sizes of the specification give the five
    texts it lists. *)
Theorem format_bytes_readable :
  (forall n : Z,
      0 <= n < 2 ^ 1024 - 2 ^ 970 ->
      exists (f : pyfloat) (unit : string),
        format_bytes n
          = Ok ((str_int (hundredths f / 100) +:+ "."
                 +:+ digit (hundredths f mod 100 / 10)
                 +:+ digit (hundredths f mod 10)) +:+ " " +:+ unit)
        /\ In unit ["B"; "KB"; "MB"; "GB"; "TB"; "PB"]
        /\ 0 <= hundredths f
        /\ (unit <> "PB" -> float_ltb f 1024 = true /\ hundredths f <= 102400))
  /\ format_bytes 0 = Ok "0.00 B"
  /\ format_bytes 1023 = Ok "1023.00 B"
  /\ format_bytes 1024 = Ok "1.00 KB"
  /\ format_bytes 1048576 = Ok "1.00 MB"
  /\ format_bytes 1099511627776 = Ok "1.00 TB".
Proof.
  split; [|repeat split; vm_compute; reflexivity].
  intros n Hn.
  assert (Hshape : exists f unit,
             format_bytes n = Ok (show_hundredths (hundredths f) +:+ " " +:+ unit)
             /\ 0 <= mant f
             /\ (In unit ["B"; "KB"; "MB"; "GB"; "TB"] /\ float_ltb f 1024 = true
                 \/ unit = "PB")).
  { unfold format_bytes.
    cbn [format_bytes_loop lt_1024 format_2f div_1024].
    destruct (Z.ltb_spec n 1024) as [Hsmall|Hlarge].
    - assert (2 ^ 10 < 2 ^ 53) by (apply Z.pow_lt_mono_r; lia).
      rewrite float_of_int_exact by (change (2 ^ 10) with 1024 in *; lia).
      cbn [rbind]. exists {| mant := n; expo := 0 |}, "B".
      rewrite format_float_2f_nonneg by (cbn; lia).
      split; [reflexivity|]. split; [cbn; lia|]. left. split; [left; reflexivity|].
      unfold float_ltb. cbn [mant expo]. change (2 ^ 0) with 1.
      apply Z.ltb_lt. lia.
    - destruct (float_of_int_ok n Hn) as (f0 & -> & Hf0). cbn [rbind].
      destruct (format_bytes_loop_float ["KB"; "MB"; "GB"; "TB"] (float_div_1024 f0))
        as (f & u & Hrun & Hf & Hu).
      { apply round_to_double_nonneg. exact Hf0. }
      exists f, u. split; [exact Hrun|]. split; [exact Hf|].
      destruct Hu as [[Hin Hlt]|Hpb]; [left; split; [right; exact Hin|exact Hlt]|right; exact Hpb]. }
  destruct Hshape as (f & unit & Hrun & Hf & Hu).
  exists f, unit. split; [exact Hrun|].
  split.
  { destruct Hu as [[Hin _]|Hpb]; [cbn in Hin |- *; tauto|].
    rewrite Hpb. cbn. tauto. }
  split; [apply hundredths_nonneg; exact Hf|].
  intros Hne. destruct Hu as [[_ Hlt]|Hpb]; [|contradiction].
  split; [exact Hlt|apply hundredths_below_1024; exact Hlt].
Qed.

(** ** C5: image keys *)

Lemma endswith_app (p suffix : string) : endswith (p +:+ suffix) suffix = true.
Proof.
  induction p as [|c p IH].
  - change (EmptyString +:+ suffix) with suffix.
    destruct suffix; cbn [endswith]; rewrite String.eqb_refl; reflexivity.
  - change (String c p +:+ suffix) with (String c (p +:+ suffix)).
    cbn [endswith]. rewrite IH. destruct (String.eqb _ _); reflexivity.
Qed.

Lemma endswith_spec (s suffix : string) :
  endswith s suffix = true <-> exists p, s = p +:+ suffix.
Proof.
  split.
  - induction s as [|c s IH]; cbn [endswith].
    + destruct (String.eqb_spec EmptyString suffix) as [<-|]; [|discriminate].
      intros _. exists EmptyString. reflexivity.
    + destruct (String.eqb_spec (String c s) suffix) as [<-|].
      * intros _. exists EmptyString. reflexivity.
      * intros [p ->]%IH. exists (String c p). reflexivity.
  - intros [p ->]. apply endswith_app.
Qed.

(** Read as it is written, with suffixes that have no dot, the claim fails:
    the key below, lowercased, ends with [jpeg], one of the suffixes listed,
    and is no image for the code, which asks for the suffix [.jpeg]. *)
Lemma is_image_wants_the_dot :
  is_image "photo.pjpeg" = false
  /\ exists ext p,
       In ext ["jpg"; "jpeg"; "png"; "gif"; "bmp"; "webp"]
       /\ lower "photo.pjpeg" = p +:+ ext.
Proof.
  split; [reflexivity|].
  exists "jpeg", "photo.p". split; [cbn; tauto|reflexivity].
Qed.

(** C5 (amended).  [is_image] is true exactly when the lowercased key ends
    with one of the suffixes .jpg, .jpeg, .png, .gif, .bmp and .webp, the dot
    included; [a.PNG] is an image and [a.tiff] is not. *)
Theorem is_image_iff_dotted_suffix :
  (forall filename : string,
      is_image filename = true
      <-> exists ext p,
            In ext [".jpg"; ".jpeg"; ".png"; ".gif"; ".bmp"; ".webp"]
            /\ lower filename = p +:+ ext)
  /\ is_image "a.PNG" = true
  /\ is_image "a.tiff" = false.
Proof.
  split; [|split; reflexivity].
  intros filename. unfold is_image. rewrite existsb_exists.
  split.
  - intros (ext & Hin & [p Hp]%endswith_spec). exists ext, p. split; assumption.
  - intros (ext & p & Hin & Hp). exists ext. split; [exact Hin|].
    apply endswith_spec. exists p. exact Hp.
Qed.

(** ** The handler, step by step *)

Section HandlerFacts.

Context (svc : Collaborators).

Implicit Types (w : World svc) (event : S3Event.Event).

Lemma build_metadata_no_record w :
  build_metadata svc {| S3Event.Records := [] |} w
  = (Raise (IndexError "list index out of range"), w).
Proof. reflexivity. Qed.

Lemma build_metadata_unfold (record : S3Event.EventRecord)
    (rest : list S3Event.EventRecord) w :
  let bucket_name := S3Event.name (S3Event.bucket (S3Event.s3 record)) in
  let file_key := S3Event.key (S3Event.object (S3Event.s3 record)) in
  let file_size := S3Event.size (S3Event.object (S3Event.s3 record)) in
  let w0 := after_head svc bucket_name file_key w in
  build_metadata svc {| S3Event.Records := record :: rest |} w
  = match head_object svc (store w) bucket_name file_key with
    | inl e => (inl e, w0)
    | inr response =>
        match format_bytes file_size with
        | inl e => (inl e, w0)
        | inr fileSizeReadable =>
            match getitem "LastModified" (LastModified response) with
            | inl e => (inl e, w0)
            | inr lastModified =>
                match getitem "ETag" (ETag response) with
                | inl e => (inl e, w0)
                | inr etag =>
                    let metadata :=
                      new_metadata file_key bucket_name file_size
                        fileSizeReadable
                        (get_default (ContentType response) "unknown")
                        (isoformat lastModified) etag
                        (isoformat (utcnow w)) in
                    if is_image file_key
                    then match image_step svc bucket_name file_key metadata w0 with
                         | (inl e, w1) => (inl e, w1)
                         | (inr metadata', w1) =>
                             (inr (bucket_name, file_key, metadata'), w1)
                         end
                    else (inr (bucket_name, file_key, metadata), w0)
                end
            end
        end
    end.
Proof.
  intros bucket_name file_key file_size w0.
  unfold build_metadata.
  cbv [mbind M_bind bind lift mret M_ret ret S3Event.Records first_record
       print datetime_utcnow s3_head_object].
  fold bucket_name file_key file_size.
  change (log svc (HeadObject bucket_name file_key) _) with w0.
  change (store (write_line svc _ w)) with (store w).
  change (utcnow w0) with (utcnow w).
  destruct (head_object svc (store w) bucket_name file_key) as [e|response];
    [reflexivity|].
  destruct (format_bytes file_size) as [e|fileSizeReadable]; [reflexivity|].
  destruct (getitem "LastModified" (LastModified response)) as [e|lastModified];
    [reflexivity|].
  destruct (getitem "ETag" (ETag response)) as [e|etag]; [reflexivity|].
  destruct (is_image file_key); [|reflexivity].
  cbv zeta.
  destruct (image_step svc bucket_name file_key _ w0) as [[e|metadata'] w1];
    reflexivity.
Qed.

(** The image sub-step never raises, and [os.remove] finds the file
    that the download has just written. *)
Lemma image_step_unfold (bucket_name file_key : string) (metadata : dict) w :
  let download_path := "/tmp/" +:+ os_path.basename file_key in
  let failed (metadata : dict) (img_error : exn) (w' : World svc)
    : result dict * World svc :=
    (Ok (dict_set metadata "imageError" (JStr (str_exn img_error))),
     write_line svc
       ("Could not extract image dimensions: " +:+ str_exn img_error) w') in
  let w1 := log svc (DownloadFile bucket_name file_key download_path) w in
  image_step svc bucket_name file_key metadata w
  = match get_object svc (store w) bucket_name file_key with
    | inl img_error => failed metadata img_error w1
    | inr content =>
        let w2 :=
          log svc (ImageOpen download_path)
            (set_files svc (<[download_path := content]> (files w)) w1) in
        match image_open svc download_path content with
        | inl img_error => failed metadata img_error w2
        | inr img =>
            let w3 := log svc (OsRemove download_path) w2 in
            match unlink svc download_path with
            | inl img_error =>
                failed (with_image_fields metadata img) img_error w3
            | inr _ =>
                (Ok (with_image_fields metadata img),
                 set_files svc
                   (delete download_path
                      (<[download_path := content]> (files w))) w3)
            end
        end
    end.
Proof.
  intros download_path failed w1.
  unfold image_step.
  cbv [try_except mbind M_bind bind mret M_ret ret print s3_download_file
       Image_open os_remove].
  fold download_path. fold w1.
  destruct (get_object svc (store w) bucket_name file_key) as [e|content];
    [reflexivity|].
  cbn [files set_files log].
  rewrite lookup_insert_eq.
  destruct (image_open svc download_path content) as [e|img]; [reflexivity|].
  cbn [files set_files log write_line store utcnow stdout calls].
  rewrite lookup_insert_eq.
  destruct (unlink svc download_path); reflexivity.
Qed.

Lemma lambda_handler_unfold event w :
  lambda_handler svc event w
  = match build_metadata svc event w with
    | (inl e, w1) => error_response svc e w1
    | (inr (bucket_name, file_key, metadata), w1) =>
        let metadata_key := metadata_key_of file_key in
        let Body := json_dumps_indent (JObj metadata) 2 in
        let w2 :=
          log svc (PutObject bucket_name metadata_key Body "application/json") w1 in
        match put_object svc (store w1) bucket_name metadata_key Body
                "application/json" with
        | inl e => error_response svc e w2
        | inr st =>
            ({| statusCode := 200;
                body := json_dumps
                          (JObj [ ("message", JStr "File processed successfully");
                                  ("metadata", JObj metadata) ]) |},
             write_line svc ("Metadata saved to: " +:+ metadata_key)
               (set_store svc st w2))
        end
    end.
Proof.
  unfold lambda_handler, save_metadata.
  cbv [mbind M_bind bind mret M_ret ret print s3_put_object].
  destruct (build_metadata svc event w) as [[e|[[bucket_name file_key] metadata]] w1];
    [reflexivity|].
  cbv zeta.
  destruct (put_object svc (store w1) bucket_name _ _ _); reflexivity.
Qed.

End HandlerFacts.

Lemma new_calls_app {svc : Collaborators} (w w' : World svc) (cs : list Call) :
  calls w' = calls w ++ cs -> new_calls w w' = cs.
Proof. intros H. unfold new_calls. rewrite H. apply drop_app_length. Qed.

(** Reduce the projections of a world built by the handler's steps. *)
Ltac world_simpl :=
  cbn [store files utcnow stdout calls log write_line set_files set_store
       after_head error_response fst snd statusCode body].

(** Prove [new_calls w w' = cs] for a world [w'] built from [w]. *)
Ltac trace_simpl :=
  apply new_calls_app; world_simpl; rewrite <- ?app_assoc; reflexivity.


Section BuildFacts.

Context (svc : Collaborators).

Implicit Types (w : World svc) (record : S3Event.EventRecord)
  (rest : list S3Event.EventRecord).

Lemma image_step_result (bucket_name file_key : string) (metadata : dict) w :
  exists w' cs,
    image_step svc bucket_name file_key metadata w
    = (Ok (image_result svc ("/tmp/" +:+ os_path.basename file_key)
             (get_object svc (store w) bucket_name file_key) metadata), w')
    /\ calls w' = calls w ++ cs
    /\ (forall B K Content T, ~ In (PutObject B K Content T) cs)
    /\ store w' = store w.
Proof.
  rewrite image_step_unfold. cbv zeta. unfold image_result.
  destruct (get_object svc (store w) bucket_name file_key) as [e|content].
  { eexists _, _. split; [reflexivity|]. world_simpl.
    split; [reflexivity|]. split; [|reflexivity].
    intros B K Content T [H|[]]. discriminate H. }
  destruct (image_open svc _ content) as [e|img].
  - eexists _, _. split; [reflexivity|]. world_simpl. rewrite <- !app_assoc.
    split; [reflexivity|]. split; [|reflexivity].
    intros B K Content T [H|[H|[]]]; discriminate H.
  - destruct (unlink svc _) as [e|[]];
      (eexists _, _; split; [reflexivity|]; world_simpl; rewrite <- !app_assoc;
       split; [reflexivity|]; split; [|reflexivity];
       intros B K Content T [H|[H|[H|[]]]]; discriminate H).
Qed.

(** The record that [build_metadata] returns, when it returns one. *)
Lemma build_metadata_ok_inv record rest w (bucket_name file_key : string)
    (metadata : dict) (w1 : World svc) :
  build_metadata svc (event_of record rest) w
    = (Ok (bucket_name, file_key, metadata), w1) ->
  bucket_name = record_bucket record
  /\ file_key = record_key record
  /\ exists head fileSizeReadable lastModified etag,
       head_object svc (store w) bucket_name file_key = Ok head
       /\ format_bytes (record_size record) = Ok fileSizeReadable
       /\ LastModified head = Some lastModified
       /\ ETag head = Some etag
       /\ metadata
          = finished_metadata svc (store w) bucket_name file_key
              (new_metadata file_key bucket_name (record_size record)
                 fileSizeReadable (get_default (ContentType head) "unknown")
                 (isoformat lastModified) etag (isoformat (utcnow w))).
Proof.
  unfold event_of. rewrite build_metadata_unfold. cbv zeta.
  fold (record_bucket record) (record_key record) (record_size record).
  destruct (head_object svc (store w) _ _) as [e|head] eqn:Hhead; [discriminate|].
  destruct (format_bytes _) as [e|fileSizeReadable] eqn:Hsize; [discriminate|].
  destruct (LastModified head) as [lastModified|] eqn:Hlm; [|discriminate].
  destruct (ETag head) as [etag|] eqn:Hetag; [|discriminate].
  cbn [getitem]. unfold finished_metadata.
  destruct (is_image (record_key record)) eqn:Himage.
  - destruct (image_step_result (record_bucket record) (record_key record)
                (new_metadata (record_key record) (record_bucket record)
                   (record_size record) fileSizeReadable
                   (get_default (ContentType head) "unknown")
                   (isoformat lastModified) etag (isoformat (utcnow w)))
                (after_head svc (record_bucket record) (record_key record) w))
      as (w' & cs & -> & _).
    intros [= <- <- <- <-]. rewrite Himage.
    split; [reflexivity|]. split; [reflexivity|].
    exists head, fileSizeReadable, lastModified, etag.
    rewrite Hhead, Hlm, Hetag. repeat split.
  - intros [= <- <- <- <-]. rewrite Himage.
    split; [reflexivity|]. split; [reflexivity|].
    exists head, fileSizeReadable, lastModified, etag.
    rewrite Hhead, Hlm, Hetag. repeat split.
Qed.

(** Building the record puts nothing, and leaves the store as it was. *)
Lemma build_metadata_calls record rest w (r : result (string * string * dict))
    (w1 : World svc) :
  build_metadata svc (event_of record rest) w = (r, w1) ->
  exists cs,
    calls w1 = calls w ++ cs
    /\ (forall B K Content T, ~ In (PutObject B K Content T) cs)
    /\ store w1 = store w.
Proof.
  unfold event_of. rewrite build_metadata_unfold. cbv zeta.
  fold (record_bucket record) (record_key record) (record_size record).
  assert (Hhead_only :
            exists cs,
              calls (after_head svc (record_bucket record) (record_key record) w)
              = calls w ++ cs
              /\ (forall B K Content T, ~ In (PutObject B K Content T) cs)
              /\ store (after_head svc (record_bucket record) (record_key record) w)
                 = store w).
  { eexists. world_simpl. split; [reflexivity|]. split; [|reflexivity].
    intros B K Content T [H|[]]. discriminate H. }
  destruct (head_object svc (store w) _ _) as [e|head];
    [intros [= <- <-]; exact Hhead_only|].
  destruct (format_bytes _) as [e|fileSizeReadable];
    [intros [= <- <-]; exact Hhead_only|].
  destruct (getitem "LastModified" _) as [e|lastModified];
    [intros [= <- <-]; exact Hhead_only|].
  destruct (getitem "ETag" _) as [e|etag];
    [intros [= <- <-]; exact Hhead_only|].
  destruct (is_image (record_key record));
    [|intros [= <- <-]; exact Hhead_only].
  match goal with
  | |- context [image_step svc ?b ?k ?m ?w0] =>
      destruct (image_step_result b k m w0) as (w' & cs & -> & Hcalls & Hnoput & Hstore)
  end.
  intros [= <- <-].
  exists (HeadObject (record_bucket record) (record_key record) :: cs).
  rewrite Hcalls, Hstore. world_simpl. rewrite <- app_assoc.
  split; [reflexivity|]. split; [|reflexivity].
  intros B K Content T [H|H]; [discriminate H|exact (Hnoput _ _ _ _ H)].
Qed.

(** The puts of an invocation: one, of the record that was built. *)
Lemma lambda_handler_puts record rest w (B K Content T : string) :
  let '(response, w') := lambda_handler svc (event_of record rest) w in
  In (PutObject B K Content T) (new_calls w w')
  <-> exists metadata w1,
        build_metadata svc (event_of record rest) w
          = (Ok (record_bucket record, record_key record, metadata), w1)
        /\ B = record_bucket record
        /\ K = metadata_key_of (record_key record)
        /\ Content = json_dumps_indent (JObj metadata) 2
        /\ T = "application/json".
Proof.
  rewrite lambda_handler_unfold.
  destruct (build_metadata svc (event_of record rest) w)
    as [[e|[[bucket_name file_key] metadata]] w1] eqn:Hbuild.
  - destruct (build_metadata_calls _ _ _ _ _ Hbuild) as (cs & Hcalls & Hnoput & _).
    cbn [error_response].
    rewrite (new_calls_app w _ cs) by (world_simpl; exact Hcalls).
    split; [intros H; destruct (Hnoput _ _ _ _ H)|].
    intros (m & w2 & [=] & _).
  - destruct (build_metadata_calls _ _ _ _ _ Hbuild) as (cs & Hcalls & Hnoput & _).
    destruct (build_metadata_ok_inv _ _ _ _ _ _ _ Hbuild) as (-> & -> & _).
    cbv zeta.
    set (put := PutObject _ _ _ _).
    assert (Hnew : forall w', calls w' = calls w1 ++ [put] ->
                              new_calls w w' = cs ++ [put]).
    { intros w' Hw'. apply new_calls_app. rewrite Hw', Hcalls, <- app_assoc.
      reflexivity. }
    assert (Hiff : In (PutObject B K Content T) (cs ++ [put])
                   <-> exists metadata0 w2,
                         (Ok (record_bucket record, record_key record, metadata), w1)
                         = (Ok (record_bucket record, record_key record, metadata0), w2)
                         /\ B = record_bucket record
                         /\ K = metadata_key_of (record_key record)
                         /\ Content = json_dumps_indent (JObj metadata0) 2
                         /\ T = "application/json").
    { rewrite in_app_iff. split.
      - intros [H|[H|[]]]; [destruct (Hnoput _ _ _ _ H)|].
        injection H as <- <- <- <-. exists metadata, w1. repeat split.
      - intros (m & w2 & [= <- <-] & -> & -> & -> & ->). right. left. reflexivity. }
    destruct (put_object svc (store w1) _ _ _ _) as [e|st];
      cbn [error_response]; rewrite Hnew by (world_simpl; reflexivity); exact Hiff.
Qed.

(** The record is built when the head lookup returns a response with
    [LastModified] and [ETag], and the size can be formatted. *)
Lemma build_metadata_ok record rest w (head : HeadResponse)
    (fileSizeReadable : string) (lastModified : datetime) (etag : string) :
  head_object svc (store w) (record_bucket record) (record_key record) = Ok head ->
  format_bytes (record_size record) = Ok fileSizeReadable ->
  LastModified head = Some lastModified ->
  ETag head = Some etag ->
  exists w1,
    build_metadata svc (event_of record rest) w
    = (Ok (record_bucket record, record_key record,
           finished_metadata svc (store w) (record_bucket record)
             (record_key record)
             (new_metadata (record_key record) (record_bucket record)
                (record_size record) fileSizeReadable
                (get_default (ContentType head) "unknown")
                (isoformat lastModified) etag (isoformat (utcnow w)))), w1)
    /\ store w1 = store w.
Proof.
  intros Hhead Hsize Hlm Hetag.
  unfold event_of. rewrite build_metadata_unfold. cbv zeta.
  fold (record_bucket record) (record_key record) (record_size record).
  rewrite Hhead, Hsize, Hlm, Hetag. cbn [getitem]. unfold finished_metadata.
  destruct (is_image (record_key record)).
  - match goal with
    | |- context [image_step svc ?b ?k ?m ?w0] =>
        destruct (image_step_result b k m w0) as (w' & cs & -> & _ & _ & Hstore)
    end.
    exists w'. split; [reflexivity|exact Hstore].
  - eexists. split; reflexivity.
Qed.

(** The answer once the record is built and the put returns. *)
Lemma lambda_handler_saved record rest w (metadata : dict) (w1 : World svc)
    (st : Store svc) :
  build_metadata svc (event_of record rest) w
    = (Ok (record_bucket record, record_key record, metadata), w1) ->
  put_object svc (store w1) (record_bucket record)
    (metadata_key_of (record_key record))
    (json_dumps_indent (JObj metadata) 2) "application/json" = Ok st ->
  let '(response, w') := lambda_handler svc (event_of record rest) w in
  statusCode response = 200
  /\ body response = success_body metadata
  /\ store w' = st.
Proof.
  intros Hbuild Hput.
  rewrite lambda_handler_unfold, Hbuild. cbv zeta. rewrite Hput.
  repeat split.
Qed.



End BuildFacts.

Section Claims.

Context (svc : Collaborators).

Implicit Types (w : World svc) (record : S3Event.EventRecord)
  (rest : list S3Event.EventRecord).

(** ** C8: only the first record counts *)

(** C8.  Two events with the same first record give the same response and
    leave the same world, whatever records follow the first. *)
Theorem only_first_record_is_read record rest1 rest2 w :
  lambda_handler svc (event_of record rest1) w
  = lambda_handler svc (event_of record rest2) w.
Proof.
  rewrite !lambda_handler_unfold. unfold event_of.
  rewrite !build_metadata_unfold. reflexivity.
Qed.

(** ** C2: a failed head lookup *)

(** C2.  When the head lookup of the triggering object raises, the handler
    answers 500 with a body that has an [error] field holding the message
    of the exception; the head lookup is its only call, so nothing is put,
    and the store and the scratch files are as they were. *)
Theorem head_failure_gives_500 record rest w (e : exn) :
  head_object svc (store w) (record_bucket record) (record_key record)
    = Raise e ->
  let '(response, w') := lambda_handler svc (event_of record rest) w in
  statusCode response = 500
  /\ body response
     = json_dumps (JObj [ ("message", JStr "Error processing file");
                          ("error", JStr (str_exn e)) ])
  /\ new_calls w w' = [HeadObject (record_bucket record) (record_key record)]
  /\ store w' = store w
  /\ files w' = files w.
Proof.
  intros Hhead.
  rewrite lambda_handler_unfold. unfold event_of.
  rewrite build_metadata_unfold. cbv zeta.
  unfold record_bucket, record_key in Hhead. rewrite Hhead.
  world_simpl. repeat split. trace_simpl.
Qed.

(** ** C10: the calls made for a key that is no image *)

(** C10 (amended).  For a first record whose key is no image, the
    invocation leaves the scratch files alone and makes no download.  When
    the record cannot be built (the head lookup or one of the values of
    the record raises) its only call is the head lookup of the triggering
    key, the answer is 500 and the store is unchanged; when the record is
    built, its calls are that head lookup and then one put of the record
    under the derived key. *)
Theorem non_image_key_calls record rest w :
  is_image (record_key record) = false ->
  let bucket_name := record_bucket record in
  let file_key := record_key record in
  let '(response, w') := lambda_handler svc (event_of record rest) w in
  files w' = files w
  /\ ((exists e w1,
          build_metadata svc (event_of record rest) w = (Raise e, w1)
          /\ statusCode response = 500
          /\ new_calls w w' = [HeadObject bucket_name file_key]
          /\ store w' = store w)
      \/ (exists metadata w1,
             build_metadata svc (event_of record rest) w
               = (Ok (bucket_name, file_key, metadata), w1)
             /\ new_calls w w'
                = [ HeadObject bucket_name file_key;
                    PutObject bucket_name (metadata_key_of file_key)
                      (json_dumps_indent (JObj metadata) 2)
                      "application/json" ])).
Proof.
  intros Hnot. cbv zeta.
  set (bucket_name := record_bucket record).
  set (file_key := record_key record) in *.
  rewrite lambda_handler_unfold. unfold event_of.
  rewrite build_metadata_unfold. cbv zeta.
  fold (record_bucket record) (record_key record) (record_size record).
  fold bucket_name file_key. rewrite Hnot.
  destruct (head_object svc (store w) bucket_name file_key) as [e|response].
  { world_simpl. split; [reflexivity|]. left. exists e, (after_head svc bucket_name file_key w).
    repeat split. trace_simpl. }
  destruct (format_bytes (record_size record)) as [e|fileSizeReadable].
  { world_simpl. split; [reflexivity|]. left. exists e, (after_head svc bucket_name file_key w).
    repeat split. trace_simpl. }
  destruct (getitem "LastModified" (LastModified response)) as [e|lastModified].
  { world_simpl. split; [reflexivity|]. left. exists e, (after_head svc bucket_name file_key w).
    repeat split. trace_simpl. }
  destruct (getitem "ETag" (ETag response)) as [e|etag].
  { world_simpl. split; [reflexivity|]. left. exists e, (after_head svc bucket_name file_key w).
    repeat split. trace_simpl. }
  set (metadata := new_metadata _ _ _ _ _ _ _ _).
  destruct (put_object svc _ bucket_name _ _ _) as [e|st];
    world_simpl; (split; [reflexivity|]); right;
    exists metadata, (after_head svc bucket_name file_key w);
    (split; [reflexivity|]); trace_simpl.
Qed.

(** ** C3: a key that is no image *)

(** C3.  For a first record with the key [docs/report.pdf], when the head
    lookup returns its response and the put of the record returns, the
    handler answers 200 with the record in its body; the record has none
    of the image fields, and it is put under the key
    [metadata/docs/report_metadata.json]. *)
Theorem report_pdf_is_saved record rest w (head : HeadResponse)
    (fileSizeReadable : string) (lastModified : datetime) (etag : string)
    (st : Store svc) :
  record_key record = "docs/report.pdf" ->
  head_object svc (store w) (record_bucket record) "docs/report.pdf" = Ok head ->
  format_bytes (record_size record) = Ok fileSizeReadable ->
  LastModified head = Some lastModified ->
  ETag head = Some etag ->
  let metadata :=
    new_metadata "docs/report.pdf" (record_bucket record) (record_size record)
      fileSizeReadable (get_default (ContentType head) "unknown")
      (isoformat lastModified) etag (isoformat (utcnow w)) in
  put_object svc (store w) (record_bucket record)
    "metadata/docs/report_metadata.json"
    (json_dumps_indent (JObj metadata) 2) "application/json" = Ok st ->
  let '(response, w') := lambda_handler svc (event_of record rest) w in
  statusCode response = 200
  /\ body response = success_body metadata
  /\ new_calls w w'
     = [ HeadObject (record_bucket record) "docs/report.pdf";
         PutObject (record_bucket record) "metadata/docs/report_metadata.json"
           (json_dumps_indent (JObj metadata) 2) "application/json" ]
  /\ store w' = st
  /\ dict_get metadata "imageWidth" = None
  /\ dict_get metadata "imageHeight" = None
  /\ dict_get metadata "imageFormat" = None
  /\ dict_get metadata "imageMode" = None
  /\ dict_get metadata "imageError" = None.
Proof.
  intros Hkey Hhead Hsize Hlm Hetag metadata Hput.
  rewrite lambda_handler_unfold. unfold event_of.
  rewrite build_metadata_unfold. cbv zeta.
  fold (record_bucket record) (record_key record) (record_size record).
  rewrite Hkey, Hhead, Hsize, Hlm, Hetag. cbn [getitem].
  change (is_image "docs/report.pdf") with false. cbv iota.
  change (metadata_key_of "docs/report.pdf")
    with "metadata/docs/report_metadata.json".
  fold metadata. world_simpl. rewrite Hput. world_simpl.
  split; [reflexivity|]. split; [reflexivity|]. split; [trace_simpl|].
  repeat split.
Qed.

(** ** C4: an image that cannot be read *)

(** C4.  For a first record whose key is an image key, when the download
    raises or [Image.open] raises on what was downloaded, the exception
    stays inside the image sub-step: with a head lookup and a put that
    return, the handler answers 200, and the record it puts and returns has
    [imageError], the message of the exception, and no [imageWidth]. *)
Theorem unreadable_image_is_recorded record rest w (head : HeadResponse)
    (fileSizeReadable : string) (lastModified : datetime) (etag : string)
    (img_error : exn) (st : Store svc) :
  let bucket_name := record_bucket record in
  let file_key := record_key record in
  is_image file_key = true ->
  head_object svc (store w) bucket_name file_key = Ok head ->
  format_bytes (record_size record) = Ok fileSizeReadable ->
  LastModified head = Some lastModified ->
  ETag head = Some etag ->
  (get_object svc (store w) bucket_name file_key = Raise img_error
   \/ exists content,
        get_object svc (store w) bucket_name file_key = Ok content
        /\ image_open svc ("/tmp/" +:+ os_path.basename file_key) content
           = Raise img_error) ->
  let metadata :=
    dict_set
      (new_metadata file_key bucket_name (record_size record)
         fileSizeReadable (get_default (ContentType head) "unknown")
         (isoformat lastModified) etag (isoformat (utcnow w)))
      "imageError" (JStr (str_exn img_error)) in
  put_object svc (store w) bucket_name (metadata_key_of file_key)
    (json_dumps_indent (JObj metadata) 2) "application/json" = Ok st ->
  let '(response, w') := lambda_handler svc (event_of record rest) w in
  statusCode response = 200
  /\ body response = success_body metadata
  /\ In (PutObject bucket_name (metadata_key_of file_key)
           (json_dumps_indent (JObj metadata) 2) "application/json")
        (new_calls w w')
  /\ dict_get metadata "imageError" = Some (JStr (str_exn img_error))
  /\ dict_get metadata "imageWidth" = None.
Proof.
  intros bucket_name file_key Himage Hhead Hsize Hlm Hetag Hfail metadata Hput.
  destruct (build_metadata_ok svc record rest w head fileSizeReadable
              lastModified etag Hhead Hsize Hlm Hetag) as (w1 & Hbuild & Hstore).
  assert (Hmeta :
            finished_metadata svc (store w) bucket_name file_key
              (new_metadata file_key bucket_name (record_size record)
                 fileSizeReadable (get_default (ContentType head) "unknown")
                 (isoformat lastModified) etag (isoformat (utcnow w)))
            = metadata).
  { unfold finished_metadata, image_result. rewrite Himage.
    destruct Hfail as [->|(content & -> & ->)]; reflexivity. }
  fold bucket_name file_key in Hbuild. rewrite Hmeta in Hbuild.
  pose proof (lambda_handler_saved svc record rest w metadata w1 st Hbuild) as Hsaved.
  pose proof (lambda_handler_puts svc record rest w bucket_name
                (metadata_key_of file_key)
                (json_dumps_indent (JObj metadata) 2) "application/json") as Hputs.
  destruct (lambda_handler svc (event_of record rest) w) as [response w'].
  destruct Hsaved as (Hstatus & Hbody & _).
  { fold bucket_name file_key. rewrite Hstore. exact Hput. }
  split; [exact Hstatus|]. split; [exact Hbody|].
  split; [apply Hputs; exists metadata, w1; repeat split; exact Hbuild|].
  split; reflexivity.
Qed.

(** ** C6: image fields or an image error *)


(** ** C7: a second invocation *)


(** ** C9: the fields of the head response *)

(** C9.  Take a head lookup that returns, for a size that can be formatted.
    A response without [ContentType] is no failure: the record is built,
    with [contentType] set to [unknown].  A response without [LastModified],
    or without [ETag], is one: the handler answers 500 with the [KeyError]
    of the missing key, and puts nothing. *)
Theorem head_response_fields record rest w (head : HeadResponse)
    (fileSizeReadable : string) :
  let bucket_name := record_bucket record in
  let file_key := record_key record in
  head_object svc (store w) bucket_name file_key = Ok head ->
  format_bytes (record_size record) = Ok fileSizeReadable ->
  (ContentType head = None ->
   forall lastModified etag,
     LastModified head = Some lastModified ->
     ETag head = Some etag ->
     exists metadata w1,
       build_metadata svc (event_of record rest) w
         = (Ok (bucket_name, file_key, metadata), w1)
       /\ dict_get metadata "contentType" = Some (JStr "unknown"))
  /\ (LastModified head = None ->
      let '(response, w') := lambda_handler svc (event_of record rest) w in
      statusCode response = 500
      /\ body response
         = json_dumps (JObj [ ("message", JStr "Error processing file");
                              ("error", JStr "'LastModified'") ])
      /\ new_calls w w' = [HeadObject bucket_name file_key]
      /\ store w' = store w)
  /\ (forall lastModified,
        LastModified head = Some lastModified ->
        ETag head = None ->
        let '(response, w') := lambda_handler svc (event_of record rest) w in
        statusCode response = 500
        /\ body response
           = json_dumps (JObj [ ("message", JStr "Error processing file");
                                ("error", JStr "'ETag'") ])
        /\ new_calls w w' = [HeadObject bucket_name file_key]
        /\ store w' = store w).
Proof.
  intros bucket_name file_key Hhead Hsize.
  split; [|split].
  - intros Hct lm etag Hlm Hetag.
    destruct (build_metadata_ok svc record rest w head fileSizeReadable lm etag
                Hhead Hsize Hlm Hetag) as (w1 & Hbuild & _).
    eexists _, w1. split; [exact Hbuild|].
    rewrite Hct. unfold finished_metadata, image_result.
    destruct (is_image (record_key record)); [|reflexivity].
    destruct (get_object svc (store w) _ _) as [e|content]; [reflexivity|].
    destruct (image_open svc _ content); [reflexivity|].
    destruct (unlink svc _); reflexivity.
  - intros Hlm.
    rewrite lambda_handler_unfold. unfold event_of.
    rewrite build_metadata_unfold. cbv zeta.
    fold (record_bucket record) (record_key record) (record_size record).
    fold bucket_name file_key. rewrite Hhead, Hsize, Hlm. cbn [getitem].
    world_simpl. repeat split. trace_simpl.
  - intros lm Hlm Hetag.
    rewrite lambda_handler_unfold. unfold event_of.
    rewrite build_metadata_unfold. cbv zeta.
    fold (record_bucket record) (record_key record) (record_size record).
    fold bucket_name file_key. rewrite Hhead, Hsize, Hlm, Hetag. cbn [getitem].
    world_simpl. repeat split. trace_simpl.
Qed.

End Claims.

(** ** The theorems on the store in memory *)

(** C1 at 2048 bytes. *)
Lemma format_bytes_readable_witness :
  0 <= 2048 < 2 ^ 1024 - 2 ^ 970
  /\ exists (f : pyfloat) (unit : string),
       format_bytes 2048
         = Ok ((str_int (hundredths f / 100) +:+ "."
                +:+ digit (hundredths f mod 100 / 10)
                +:+ digit (hundredths f mod 10)) +:+ " " +:+ unit)
       /\ In unit ["B"; "KB"; "MB"; "GB"; "TB"; "PB"]
       /\ 0 <= hundredths f
       /\ (unit <> "PB" -> float_ltb f 1024 = true /\ hundredths f <= 102400).
Proof.
  assert (H : 0 <= 2048 < 2 ^ 1024 - 2 ^ 970)
    by (split; [discriminate|vm_compute; reflexivity]).
  split; [exact H|exact (proj1 format_bytes_readable 2048 H)].
Defined.

(** C2 on the empty store: the head lookup finds nothing. *)
Lemma head_failure_gives_500_witness :
  head_object Memory.service (store Memory.empty) "uploads" "docs/report.pdf"
    = Raise (Memory.not_found "HeadObject")
  /\ let '(response, w') :=
       lambda_handler Memory.service (event_of Memory.report []) Memory.empty in
     statusCode response = 500
     /\ body response
        = json_dumps
            (JObj [ ("message", JStr "Error processing file");
                    ("error", JStr (str_exn (Memory.not_found "HeadObject"))) ])
     /\ new_calls Memory.empty w' = [HeadObject "uploads" "docs/report.pdf"]
     /\ store w' = store Memory.empty
     /\ files w' = files Memory.empty.
Proof.
  split; [reflexivity|].
  exact (head_failure_gives_500 Memory.service Memory.report [] Memory.empty
           (Memory.not_found "HeadObject") eq_refl).
Defined.

(** C3 on a store that holds the report. *)
Lemma report_pdf_is_saved_witness :
  let metadata :=
    new_metadata "docs/report.pdf" "uploads" 2048 "2.00 KB" "application/pdf"
      "2024-04-30T09:15:00+00:00" "0123456789abcdef"
      "2024-05-01T12:00:00.000123" in
  let st :=
    Memory.put (store Memory.with_report) "uploads"
      "metadata/docs/report_metadata.json"
      (json_dumps_indent (JObj metadata) 2) "application/json" in
  format_bytes 2048 = Ok "2.00 KB"
  /\ let '(response, w') :=
       lambda_handler Memory.service (event_of Memory.report []) Memory.with_report in
     statusCode response = 200
     /\ body response = success_body metadata
     /\ new_calls Memory.with_report w'
        = [ HeadObject "uploads" "docs/report.pdf";
            PutObject "uploads" "metadata/docs/report_metadata.json"
              (json_dumps_indent (JObj metadata) 2) "application/json" ]
     /\ store w' = st
     /\ dict_get metadata "imageWidth" = None
     /\ dict_get metadata "imageHeight" = None
     /\ dict_get metadata "imageFormat" = None
     /\ dict_get metadata "imageMode" = None
     /\ dict_get metadata "imageError" = None.
Proof.
  intros metadata st.
  assert (Hsize : format_bytes 2048 = Ok "2.00 KB") by (vm_compute; reflexivity).
  split; [exact Hsize|].
  exact (report_pdf_is_saved Memory.service Memory.report [] Memory.with_report
           (Memory.Head (Memory.uploaded "%PDF-1.7" (Some "application/pdf")))
           "2.00 KB" {| isoformat := "2024-04-30T09:15:00+00:00" |}
           "0123456789abcdef" st eq_refl eq_refl Hsize eq_refl eq_refl eq_refl).
Defined.

(** C10 on a store that holds the report. *)
Lemma non_image_key_calls_witness :
  is_image (record_key Memory.report) = false
  /\ let '(response, w') :=
       lambda_handler Memory.service (event_of Memory.report []) Memory.with_report in
     files w' = files Memory.with_report
     /\ ((exists e w1,
            build_metadata Memory.service (event_of Memory.report []) Memory.with_report
              = (Raise e, w1)
            /\ statusCode response = 500
            /\ new_calls Memory.with_report w' = [HeadObject "uploads" "docs/report.pdf"]
            /\ store w' = store Memory.with_report)
        \/ (exists metadata w1,
               build_metadata Memory.service (event_of Memory.report []) Memory.with_report
                 = (Ok ("uploads", "docs/report.pdf", metadata), w1)
               /\ new_calls Memory.with_report w'
                  = [ HeadObject "uploads" "docs/report.pdf";
                      PutObject "uploads" "metadata/docs/report_metadata.json"
                        (json_dumps_indent (JObj metadata) 2)
                        "application/json" ])).
Proof.
  split; [reflexivity|].
  exact (non_image_key_calls Memory.service Memory.report []
                Memory.with_report eq_refl).
Defined.

(** The claim as it is written has one put for every key that is no image;
    when the head lookup raises there is none. *)
Lemma head_failure_puts_nothing :
  is_image "docs/report.pdf" = false
  /\ new_calls Memory.empty
       (snd (lambda_handler Memory.service (event_of Memory.report [])
               Memory.empty))
     = [HeadObject "uploads" "docs/report.pdf"].
Proof. split; vm_compute; reflexivity. Qed.

(** C4 on a store whose picture is no picture. *)
Lemma unreadable_image_is_recorded_witness :
  let img_error := ExternalError "cannot identify image file '/tmp/cat.jpg'" in
  let metadata :=
    dict_set
      (new_metadata "photos/cat.jpg" "uploads" 15 "15.00 B" "unknown"
         "2024-04-30T09:15:00+00:00" "0123456789abcdef"
         "2024-05-01T12:00:00.000123")
      "imageError" (JStr (str_exn img_error)) in
  is_image "photos/cat.jpg" = true
  /\ get_object Memory.service (store Memory.with_broken_cat) "uploads" "photos/cat.jpg"
     = Ok "not a picture"
  /\ image_open Memory.service "/tmp/cat.jpg" "not a picture" = Raise img_error
  /\ let '(response, w') :=
       lambda_handler Memory.service (event_of Memory.cat []) Memory.with_broken_cat in
     statusCode response = 200
     /\ body response = success_body metadata
     /\ In (PutObject "uploads" "metadata/photos/cat_metadata.json"
              (json_dumps_indent (JObj metadata) 2) "application/json")
           (new_calls Memory.with_broken_cat w')
     /\ dict_get metadata "imageError" = Some (JStr (str_exn img_error))
     /\ dict_get metadata "imageWidth" = None.
Proof.
  intros img_error metadata.
  assert (Hget : get_object Memory.service (store Memory.with_broken_cat)
                   "uploads" "photos/cat.jpg" = Ok "not a picture")
    by (vm_compute; reflexivity).
  assert (Hopen : image_open Memory.service "/tmp/cat.jpg" "not a picture"
                  = Raise img_error) by (vm_compute; reflexivity).
  assert (Hsize : format_bytes 15 = Ok "15.00 B") by (vm_compute; reflexivity).
  split; [reflexivity|]. split; [exact Hget|]. split; [exact Hopen|].
  exact (unreadable_image_is_recorded Memory.service Memory.cat []
           Memory.with_broken_cat
           (Memory.Head (Memory.uploaded "not a picture" None))
           "15.00 B" {| isoformat := "2024-04-30T09:15:00+00:00" |}
           "0123456789abcdef" img_error
           (Memory.put (store Memory.with_broken_cat) "uploads"
              "metadata/photos/cat_metadata.json"
              (json_dumps_indent (JObj metadata) 2) "application/json")
           eq_refl eq_refl Hsize eq_refl eq_refl
           (or_intror (ex_intro _ "not a picture" (conj Hget Hopen)))
           eq_refl).
Defined.




(** C9 on an object without content type, and on one without [LastModified]. *)
Lemma head_response_fields_witness :
  let head := Memory.Head (Memory.uploaded Memory.sample_png None) in
  head_object Memory.service (store Memory.with_cat) "uploads" "photos/cat.jpg"
    = Ok head
  /\ format_bytes 15 = Ok "15.00 B"
  /\ ContentType head = None
  /\ (exists metadata w1,
         build_metadata Memory.service (event_of Memory.cat []) Memory.with_cat
           = (Ok ("uploads", "photos/cat.jpg", metadata), w1)
         /\ dict_get metadata "contentType" = Some (JStr "unknown"))
  /\ (let '(response, w') :=
        lambda_handler Memory.service (event_of Memory.report []) Memory.without_dates in
      statusCode response = 500
      /\ body response
         = json_dumps (JObj [ ("message", JStr "Error processing file");
                              ("error", JStr "'LastModified'") ])
      /\ new_calls Memory.without_dates w' = [HeadObject "uploads" "docs/report.pdf"]
      /\ store w' = store Memory.without_dates).
Proof.
  intros head.
  assert (Hhead : head_object Memory.service (store Memory.with_cat)
                    "uploads" "photos/cat.jpg" = Ok head)
    by (vm_compute; reflexivity).
  assert (Hsize : format_bytes 15 = Ok "15.00 B") by (vm_compute; reflexivity).
  assert (Hhead' : head_object Memory.service (store Memory.without_dates)
                     "uploads" "docs/report.pdf"
                   = Ok {| ContentType := Some "application/pdf";
                           LastModified := None;
                           ETag := Some "0123456789abcdef" |})
    by (vm_compute; reflexivity).
  assert (Hsize' : format_bytes 2048 = Ok "2.00 KB") by (vm_compute; reflexivity).
  split; [exact Hhead|]. split; [exact Hsize|]. split; [reflexivity|].
  split.
  - exact (proj1 (head_response_fields Memory.service Memory.cat []
                    Memory.with_cat head "15.00 B" Hhead Hsize)
             eq_refl {| isoformat := "2024-04-30T09:15:00+00:00" |}
             "0123456789abcdef" eq_refl eq_refl).
  - exact (proj1 (proj2 (head_response_fields Memory.service Memory.report []
                           Memory.without_dates _ "2.00 KB" Hhead' Hsize'))
             eq_refl).
Defined.

(** C5 at a key in mixed case. *)
Lemma is_image_iff_dotted_suffix_witness : is_image "Photos/Cat.JPeG" = true.
Proof.
  apply (proj1 is_image_iff_dotted_suffix).
  exists ".jpeg", "photos/cat". split; [cbn; tauto|reflexivity].
Defined.

(** * Further properties *)

(** ** format_bytes on exact floats *)

Lemma round_to_double_exact (m e : Z) :
  Z.abs m < 2 ^ 53 -> -1074 <= e -> round_to_double m e = {| mant := m; expo := e |}.
Proof.
  intros Hm He. unfold round_to_double. cbv zeta.
  destruct (Z.eqb_spec m 0) as [->|Hnz].
  - destruct (Z.leb_spec (Z.max (0 - 53) (-1074 - e)) 0); [reflexivity|lia].
  - assert (Z.log2 (Z.abs m) < 53) by (apply Z.log2_lt_pow2; lia).
    destruct (Z.leb_spec (Z.max (Z.log2 (Z.abs m) + 1 - 53) (-1074 - e)) 0);
      [reflexivity|lia].
Qed.

Lemma float_of_int_exact_abs (n : Z) :
  Z.abs n < 2 ^ 53 -> float_of_int n = Ok {| mant := n; expo := 0 |}.
Proof.
  intros Hn. unfold float_of_int. cbv zeta.
  rewrite round_to_double_exact by lia. cbn [mant expo].
  change (2 ^ 0) with 1.
  assert (2 ^ 53 < 2 ^ 1024) by (apply Z.pow_lt_mono_r; lia).
  destruct (Z.leb_spec (2 ^ 1024) (Z.abs n * 1)); [lia|reflexivity].
Qed.

Lemma div_half_even_one (a : Z) : div_half_even a 1 = a.
Proof.
  unfold div_half_even. rewrite Z.mod_1_r, Z.div_1_r. reflexivity.
Qed.

Lemma show_hundredths_whole (n : Z) :
  0 <= n -> show_hundredths (n * 100) = str_int n +:+ ".00".
Proof.
  intros Hn. unfold show_hundredths.
  rewrite Z.div_mul by lia.
  rewrite Z.mod_mul by lia.
  replace (n * 100 mod 10) with 0
    by (replace (n * 100) with (n * 10 * 10) by lia; rewrite Z.mod_mul by lia; reflexivity).
  reflexivity.
Qed.

Lemma str_int_opp (n : Z) : n < 0 -> "-" +:+ str_int (- n) = str_int n.
Proof. destruct n; intros H; try lia. reflexivity. Qed.

(** X1.  A size below 1024, negative sizes included, is printed as it is,
    with [.00] and the unit B. *)
Theorem format_bytes_below_1024 (n : Z) :
  - 2 ^ 53 < n < 1024 ->
  format_bytes n = Ok ((str_int n +:+ ".00") +:+ " B").
Proof.
  intros [Hlo Hhi].
  assert (2 ^ 10 < 2 ^ 53) by (apply Z.pow_lt_mono_r; lia).
  change (2 ^ 10) with 1024 in *.
  unfold format_bytes. cbn [format_bytes_loop lt_1024 format_2f].
  destruct (Z.ltb_spec n 1024); [|lia].
  rewrite float_of_int_exact_abs by lia. cbn [rbind].
  unfold format_float_2f, hundredths. cbn [mant expo].
  change (0 <=? 0) with true. cbv iota. change (2 ^ 0) with 1.
  destruct (Z.ltb_spec n 0) as [Hneg|Hpos].
  - replace (Z.abs (n * 1 * 100)) with (- n * 100) by lia.
    rewrite show_hundredths_whole by lia.
    rewrite <- (str_int_opp n Hneg). reflexivity.
  - replace (Z.abs (n * 1 * 100)) with (n * 100) by lia.
    rewrite show_hundredths_whole by lia. reflexivity.
Qed.

(** One more turn of the loop on a float that holds [n / 2^(10 i)] exactly. *)
Lemma float_div_1024_exact (n e : Z) :
  Z.abs n < 2 ^ 53 -> -1064 <= e ->
  float_div_1024 {| mant := n; expo := e |} = {| mant := n; expo := e - 10 |}.
Proof.
  intros Hn He. unfold float_div_1024. cbn [mant expo].
  apply round_to_double_exact; lia.
Qed.

Lemma float_ltb_scaled (n i : Z) :
  0 < i -> float_ltb {| mant := n; expo := - i |} 1024 = (n <? 1024 * 2 ^ i).
Proof.
  intros Hi. unfold float_ltb. cbn [mant expo].
  destruct (Z.leb_spec 0 (- i)); [lia|].
  rewrite Z.opp_involutive. reflexivity.
Qed.

Lemma format_float_2f_scaled (n i : Z) :
  0 <= n -> 0 < i ->
  format_float_2f {| mant := n; expo := - i |}
  = show_hundredths (div_half_even (n * 100) (2 ^ i)).
Proof.
  intros Hn Hi.
  rewrite format_float_2f_nonneg by exact Hn.
  unfold hundredths. cbn [mant expo].
  destruct (Z.leb_spec 0 (- i)); [lia|].
  rewrite Z.opp_involutive. reflexivity.
Qed.

Lemma format_bytes_loop_exact (units : list string) (n i : Z) :
  0 <= n < 2 ^ 53 -> 0 < i -> i + 10 * Z.of_nat (length units) <= 1064 ->
  format_bytes_loop units (Float {| mant := n; expo := - i |})
  = Ok (exact_loop units n i).
Proof.
  revert i. induction units as [|unit rest IH]; intros i Hn Hi Hlen.
  - cbn [format_bytes_loop format_2f rbind exact_loop].
    rewrite format_float_2f_scaled by lia. reflexivity.
  - cbn [format_bytes_loop lt_1024 format_2f div_1024 rbind exact_loop].
    rewrite float_ltb_scaled by lia.
    destruct (n <? 1024 * 2 ^ i).
    + rewrite format_float_2f_scaled by lia. reflexivity.
    + cbn [length] in Hlen.
      rewrite float_div_1024_exact by lia.
      replace (- i - 10) with (- (i + 10)) by lia.
      apply IH; lia.
Qed.

Lemma format_bytes_loop_cons (unit : string) (rest : list string) (size : number) :
  format_bytes_loop (unit :: rest) size
  = if lt_1024 size
    then rbind (format_2f size) (fun s => Ok (s +:+ " " +:+ unit))
    else rbind (div_1024 size) (format_bytes_loop rest).
Proof. reflexivity. Qed.

(** X2.  Below 2^53 bytes the divisions by 1024 are exact: a size from
    [1024^k] up to [1024^(k+1)] ([k] from 0 to 4), or from [1024^5] on
    ([k = 5]), is printed as [size / 1024^k], rounded to two decimals with
    ties to even, and the [k]-th unit. *)
Theorem format_bytes_exact (n k : Z) :
  0 <= n < 2 ^ 53 ->
  0 <= k <= 5 ->
  (k = 0 \/ 1024 ^ k <= n) ->
  (k = 5 \/ n < 1024 ^ (k + 1)) ->
  format_bytes n
  = Ok (show_hundredths (div_half_even (n * 100) (1024 ^ k))
        +:+ " " +:+ nth (Z.to_nat k) ["B"; "KB"; "MB"; "GB"; "TB"; "PB"] "").
Proof.
  intros Hn Hk Hlo Hhi.
  assert (Hsmall : n < 1024 -> format_bytes n
                               = Ok (show_hundredths (n * 100) +:+ " " +:+ "B")).
  { intros Hlt. unfold format_bytes. rewrite format_bytes_loop_cons.
    cbn [lt_1024 format_2f].
    destruct (Z.ltb_spec n 1024); [|lia].
    rewrite float_of_int_exact by exact Hn. cbn [rbind].
    rewrite format_float_2f_nonneg by (cbn; lia).
    unfold hundredths. cbn [mant expo]. change (0 <=? 0) with true. cbv iota.
    change (2 ^ 0) with 1. replace (n * 1 * 100) with (n * 100) by lia.
    reflexivity. }
  assert (Hlarge : 1024 <= n ->
                   format_bytes n = Ok (exact_loop ["KB"; "MB"; "GB"; "TB"] n 10)).
  { intros Hge. unfold format_bytes. rewrite format_bytes_loop_cons.
    cbn [lt_1024 div_1024].
    destruct (Z.ltb_spec n 1024); [lia|].
    rewrite float_of_int_exact by exact Hn. cbn [rbind].
    rewrite float_div_1024_exact by (rewrite ?Z.abs_eq; lia).
    apply (format_bytes_loop_exact ["KB"; "MB"; "GB"; "TB"] n 10);
      cbn [length]; lia. }
  assert (Hcases : k = 0 \/ k = 1 \/ k = 2 \/ k = 3 \/ k = 4 \/ k = 5) by lia.
  change (1024 ^ 1) with 1024 in *.
  destruct Hcases as [->|[->|[->|[->|[->| ->]]]]].
  - change (1024 ^ 0) with 1. rewrite div_half_even_one.
    destruct Hhi as [Hhi|Hhi]; [discriminate Hhi|].
    change (1024 ^ (0 + 1)) with 1024 in Hhi. exact (Hsmall Hhi).
  - destruct Hlo as [Hlo|Hlo]; [discriminate Hlo|].
    destruct Hhi as [Hhi|Hhi]; [discriminate Hhi|].
    rewrite Hlarge by lia. cbn [exact_loop].
    change (1024 ^ (1 + 1)) with (1024 * 2 ^ 10) in Hhi.
    destruct (Z.ltb_spec n (1024 * 2 ^ 10)); [|lia]. reflexivity.
  - destruct Hlo as [Hlo|Hlo]; [discriminate Hlo|].
    destruct Hhi as [Hhi|Hhi]; [discriminate Hhi|].
    change (1024 ^ 2) with (1024 * 2 ^ 10) in Hlo.
    change (1024 ^ (2 + 1)) with (1024 * 2 ^ 20) in Hhi.
    assert (1024 <= n) by (change (2 ^ 10) with 1024 in Hlo; lia).
    rewrite Hlarge by lia. cbn [exact_loop]. change (10 + 10) with 20.
    destruct (Z.ltb_spec n (1024 * 2 ^ 10)); [lia|].
    destruct (Z.ltb_spec n (1024 * 2 ^ 20)); [|lia]. reflexivity.
  - destruct Hlo as [Hlo|Hlo]; [discriminate Hlo|].
    destruct Hhi as [Hhi|Hhi]; [discriminate Hhi|].
    change (1024 ^ 3) with (1024 * 2 ^ 20) in Hlo.
    change (1024 ^ (3 + 1)) with (1024 * 2 ^ 30) in Hhi.
    assert (1024 * 2 ^ 10 <= n /\ 1024 <= n)
      by (change (2 ^ 20) with 1048576 in Hlo; change (2 ^ 10) with 1024; lia).
    rewrite Hlarge by lia. cbn [exact_loop].
    change (10 + 10) with 20. change (20 + 10) with 30.
    destruct (Z.ltb_spec n (1024 * 2 ^ 10)); [lia|].
    destruct (Z.ltb_spec n (1024 * 2 ^ 20)); [lia|].
    destruct (Z.ltb_spec n (1024 * 2 ^ 30)); [|lia]. reflexivity.
  - destruct Hlo as [Hlo|Hlo]; [discriminate Hlo|].
    destruct Hhi as [Hhi|Hhi]; [discriminate Hhi|].
    change (1024 ^ 4) with (1024 * 2 ^ 30) in Hlo.
    change (1024 ^ (4 + 1)) with (1024 * 2 ^ 40) in Hhi.
    assert (1024 * 2 ^ 20 <= n /\ 1024 * 2 ^ 10 <= n /\ 1024 <= n)
      by (change (2 ^ 30) with 1073741824 in Hlo; change (2 ^ 20) with 1048576;
          change (2 ^ 10) with 1024; lia).
    rewrite Hlarge by lia. cbn [exact_loop].
    change (10 + 10) with 20. change (20 + 10) with 30. change (30 + 10) with 40.
    destruct (Z.ltb_spec n (1024 * 2 ^ 10)); [lia|].
    destruct (Z.ltb_spec n (1024 * 2 ^ 20)); [lia|].
    destruct (Z.ltb_spec n (1024 * 2 ^ 30)); [lia|].
    destruct (Z.ltb_spec n (1024 * 2 ^ 40)); [|lia]. reflexivity.
  - destruct Hlo as [Hlo|Hlo]; [discriminate Hlo|].
    change (1024 ^ 5) with (1024 * 2 ^ 40) in Hlo.
    assert (1024 * 2 ^ 30 <= n /\ 1024 * 2 ^ 20 <= n /\ 1024 * 2 ^ 10 <= n /\ 1024 <= n)
      by (change (2 ^ 40) with 1099511627776 in Hlo; change (2 ^ 30) with 1073741824;
          change (2 ^ 20) with 1048576; change (2 ^ 10) with 1024; lia).
    rewrite Hlarge by lia. cbn [exact_loop].
    change (10 + 10) with 20. change (20 + 10) with 30. change (30 + 10) with 40.
    change (40 + 10) with 50.
    destruct (Z.ltb_spec n (1024 * 2 ^ 10)); [lia|].
    destruct (Z.ltb_spec n (1024 * 2 ^ 20)); [lia|].
    destruct (Z.ltb_spec n (1024 * 2 ^ 30)); [lia|].
    destruct (Z.ltb_spec n (1024 * 2 ^ 40)); [lia|]. reflexivity.
Qed.

Lemma float_of_int_overflow (n : Z) :
  2 ^ 1024 - 2 ^ 970 <= n ->
  float_of_int n = Raise (OverflowError "int too large to convert to float").
Proof.
  intros Hn.
  assert (H970 : 0 < 2 ^ 970) by (apply Z.pow_pos_nonneg; lia).
  assert (E971 : 2 ^ 971 = 2 * 2 ^ 970)
    by (change 971 with (Z.succ 970); apply Z.pow_succ_r; lia).
  assert (E1024 : 2 ^ 1024 = 2 ^ 53 * 2 ^ 971)
    by (rewrite <- Z.pow_add_r by lia; reflexivity).
  assert (H53 : 2 ^ 53 = 9007199254740992) by reflexivity.
  assert (Hpos : 0 < n) by nia.
  pose proof (Z.log2_spec n Hpos) as [Hlo Hhi].
  set (L := Z.log2 n) in *.
  assert (HL : 1023 <= L).
  { destruct (Z.le_gt_cases 1023 L) as [|Hlt]; [assumption|exfalso].
    assert (2 ^ Z.succ L <= 2 ^ 1023) by (apply Z.pow_le_mono_r; lia).
    assert (E1023 : 2 ^ 1024 = 2 * 2 ^ 1023)
      by (change 1024 with (Z.succ 1023); apply Z.pow_succ_r; lia).
    assert (2 ^ 970 < 2 ^ 1023) by (apply Z.pow_lt_mono_r; lia).
    lia. }
  unfold float_of_int. cbv zeta.
  destruct (Z.leb_spec (2 ^ 1024)
              (Z.abs (mant (round_to_double n 0)) * 2 ^ expo (round_to_double n 0)))
    as [|Hfin]; [reflexivity|exfalso].
  revert Hfin. unfold round_to_double. cbv zeta.
  destruct (Z.eqb_spec n 0); [lia|].
  rewrite (Z.abs_eq n) by lia. fold L.
  destruct (Z.leb_spec (Z.max (L + 1 - 53) (-1074 - 0)) 0) as [|Hs]; [lia|].
  cbn [mant expo].
  replace (Z.max (L + 1 - 53) (-1074 - 0)) with (L - 52) by lia.
  replace (0 + (L - 52)) with (L - 52) by lia.
  set (s := L - 52) in *.
  assert (Hb : 0 < 2 ^ s) by (apply Z.pow_pos_nonneg; lia).
  assert (Hlo' : 2 ^ 52 * 2 ^ s <= n).
  { rewrite <- Z.pow_add_r by lia. replace (52 + s) with L by lia. exact Hlo. }
  pose proof (div_half_even_floor n (2 ^ s)) as [Hfl _].
  assert (Hq : 2 ^ 52 <= n / 2 ^ s) by (apply Z.div_le_lower_bound; lia).
  rewrite Z.abs_eq by lia.
  assert (H52 : 2 ^ 52 = 4503599627370496) by reflexivity.
  destruct (Z.le_gt_cases 1024 L) as [Hbig|Hsmall].
  - (* n >= 2^1024: even the floor is large enough. *)
    assert (2 ^ 1024 <= 2 ^ L) by (apply Z.pow_le_mono_r; lia).
    assert (2 ^ L = 2 ^ 52 * 2 ^ s)
      by (rewrite <- Z.pow_add_r by lia; f_equal; lia).
    nia.
  - (* 2^1024 - 2^970 <= n < 2^1024: the mantissa rounds up to 2^53. *)
    assert (s = 971) by lia. subst s. replace (L - 52) with 971 in * by lia.
    assert (Hhi' : n < 2 ^ 1024).
    { replace 1024 with (Z.succ L) by lia. exact Hhi. }
    pose proof (Z.div_mod n (2 ^ 971) ltac:(lia)) as Hdm.
    pose proof (Z.mod_pos_bound n (2 ^ 971) Hb) as Hr.
    assert (Hqeq : n / 2 ^ 971 = 2 ^ 53 - 1) by nia.
    unfold div_half_even. rewrite Hqeq.
    destruct (Z.ltb_spec (2 * (n mod 2 ^ 971)) (2 ^ 971)) as [Hlow|Hup]; [nia|].
    change (Z.even (2 ^ 53 - 1)) with false.
    destruct (2 ^ 971 <? 2 * (n mod 2 ^ 971)); nia.
Qed.

(** X3.  [format_bytes] raises [OverflowError] for the sizes from
    [2^1024 - 2^970] on, and for no other size that is not negative. *)
Theorem format_bytes_overflow (n : Z) :
  0 <= n ->
  (format_bytes n = Raise (OverflowError "int too large to convert to float")
   <-> 2 ^ 1024 - 2 ^ 970 <= n).
Proof.
  intros Hn0. split.
  - intros Hraise.
    destruct (Z.le_gt_cases (2 ^ 1024 - 2 ^ 970) n) as [|Hlt]; [assumption|exfalso].
    revert Hraise. unfold format_bytes. rewrite format_bytes_loop_cons.
    cbn [lt_1024 format_2f div_1024].
    destruct (float_of_int_ok n (conj Hn0 Hlt)) as (f & -> & Hf). cbn [rbind].
    destruct (n <? 1024); [discriminate|].
    destruct (format_bytes_loop_float ["KB"; "MB"; "GB"; "TB"] (float_div_1024 f))
      as (f' & u & -> & _).
    { apply round_to_double_nonneg. exact Hf. }
    discriminate.
  - intros Hbig.
    assert (2 ^ 10 < 2 ^ 1023) by (apply Z.pow_lt_mono_r; lia).
    assert (2 ^ 970 < 2 ^ 1023) by (apply Z.pow_lt_mono_r; lia).
    assert (2 ^ 1024 = 2 * 2 ^ 1023)
      by (change 1024 with (Z.succ 1023); apply Z.pow_succ_r; lia).
    change (2 ^ 10) with 1024 in *.
    unfold format_bytes. rewrite format_bytes_loop_cons. cbn [lt_1024 div_1024].
    destruct (Z.ltb_spec n 1024); [lia|].
    rewrite float_of_int_overflow by exact Hbig. reflexivity.
Qed.

(** ** Keys and paths *)

Lemma append_nil_l (s : string) : EmptyString +:+ s = s.
Proof. reflexivity. Qed.

Lemma append_cons (c : ascii) (a b : string) :
  String c a +:+ b = String c (a +:+ b).
Proof. reflexivity. Qed.

Lemma append_nil_r (s : string) : s +:+ EmptyString = s.
Proof. induction s as [|c s IH]; [reflexivity|]. rewrite append_cons, IH. reflexivity. Qed.

Lemma append_assoc (a b c : string) : (a +:+ b) +:+ c = a +:+ (b +:+ c).
Proof.
  induction a as [|x a IH]; [reflexivity|].
  rewrite !append_cons, IH. reflexivity.
Qed.

Lemma length_append (a b : string) :
  String.length (a +:+ b) = (String.length a + String.length b)%nat.
Proof.
  induction a as [|x a IH]; [reflexivity|].
  rewrite append_cons. cbn [String.length]. rewrite IH. reflexivity.
Qed.

Lemma occurs_append (c : ascii) (a b : string) :
  occurs c (a +:+ b) = occurs c a || occurs c b.
Proof.
  induction a as [|x a IH]; [reflexivity|].
  rewrite append_cons. cbn [occurs]. rewrite IH. apply orb_assoc.
Qed.

Lemma lower_append (a b : string) : lower (a +:+ b) = lower a +:+ lower b.
Proof.
  induction a as [|x a IH]; [reflexivity|].
  rewrite append_cons. cbn [lower]. rewrite IH. reflexivity.
Qed.

(** A suffix no longer than [t] of [s +:+ t] is a suffix of [t]. *)
Lemma append_suffix (s t p e : string) :
  s +:+ t = p +:+ e ->
  (String.length e <= String.length t)%nat ->
  exists q, t = q +:+ e.
Proof.
  revert p. induction s as [|c s IH]; intros p Heq Hlen.
  - exists p. exact Heq.
  - destruct p as [|c' p].
    + rewrite append_nil_l in Heq. subst e.
      rewrite append_cons in Hlen. cbn [String.length] in Hlen.
      rewrite length_append in Hlen. lia.
    + rewrite !append_cons in Heq. injection Heq as _ Heq.
      exact (IH p Heq Hlen).
Qed.

(** A suffix of [a +:+ String c b] without [c] is a suffix of [b]. *)
Lemma append_suffix_sep (c : ascii) (a b p e : string) :
  a +:+ String c b = p +:+ e ->
  occurs c e = false ->
  exists q, b = q +:+ e.
Proof.
  revert p. induction a as [|x a IH]; intros p Heq He.
  - destruct p as [|c' p].
    + rewrite !append_nil_l in Heq. subst e.
      cbn [occurs] in He. rewrite Ascii.eqb_refl in He. discriminate.
    + rewrite append_nil_l, append_cons in Heq. injection Heq as _ Heq.
      exists p. exact Heq.
  - destruct p as [|c' p].
    + rewrite append_nil_l in Heq. subst e.
      rewrite append_cons in He. cbn [occurs] in He.
      rewrite occurs_append in He. cbn [occurs] in He.
      rewrite Ascii.eqb_refl in He.
      destruct (Ascii.eqb x c), (occurs c a); discriminate.
    + rewrite !append_cons in Heq. injection Heq as _ Heq.
      exact (IH p Heq He).
Qed.

(** *** rfind *)

Lemma rfind_from_absent (s : string) (c : ascii) (i last : Z) :
  occurs c s = false -> rfind_from s c i last = last.
Proof.
  revert i last. induction s as [|d s IH]; intros i last Hno; [reflexivity|].
  cbn [occurs] in Hno. apply orb_false_iff in Hno as [Hd Hs].
  cbn [rfind_from]. rewrite Hd. apply IH. exact Hs.
Qed.

Lemma rfind_from_last (a b : string) (c : ascii) (i last : Z) :
  occurs c b = false ->
  rfind_from (a +:+ String c b) c i last = i + Z.of_nat (String.length a).
Proof.
  intros Hb. revert i last. induction a as [|x a IH]; intros i last.
  - rewrite append_nil_l. cbn [rfind_from String.length].
    rewrite Ascii.eqb_refl, rfind_from_absent by exact Hb. lia.
  - rewrite append_cons. cbn [rfind_from String.length]. rewrite IH. lia.
Qed.

Lemma rfind_from_append_absent (s t : string) (c : ascii) (i last : Z) :
  occurs c t = false ->
  rfind_from (s +:+ t) c i last = rfind_from s c i last.
Proof.
  intros Ht. revert i last. induction s as [|x s IH]; intros i last.
  - rewrite append_nil_l. cbn [rfind_from]. apply rfind_from_absent. exact Ht.
  - rewrite append_cons. cbn [rfind_from]. apply IH.
Qed.

(** The last occurrence of a character that occurs. *)
Lemma occurs_last (c : ascii) (s : string) :
  occurs c s = true ->
  exists a b, s = a +:+ String c b /\ occurs c b = false.
Proof.
  induction s as [|d s IH]; [discriminate|].
  cbn [occurs]. intros Hocc.
  destruct (occurs c s) eqn:Hs.
  - destruct (IH eq_refl) as (a & b & -> & Hb).
    exists (String d a), b. split; [reflexivity|exact Hb].
  - rewrite orb_false_r in Hocc. apply Ascii.eqb_eq in Hocc as ->.
    exists EmptyString, s. split; [reflexivity|exact Hs].
Qed.

Lemma rfind_bounds (s : string) (c : ascii) :
  -1 <= rfind s c < Z.of_nat (String.length s).
Proof.
  unfold rfind. destruct (occurs c s) eqn:Hocc.
  - destruct (occurs_last c s Hocc) as (a & b & -> & Hb).
    rewrite rfind_from_last by exact Hb.
    rewrite length_append. cbn [String.length]. lia.
  - rewrite rfind_from_absent by exact Hocc. lia.
Qed.

(** *** Slices *)

Lemma substring_all (s : string) : String.substring 0 (String.length s) s = s.
Proof. induction s as [|c s IH]; [reflexivity|]. cbn. rewrite IH. reflexivity. Qed.

Lemma substring_skip (a b : string) (m : nat) :
  String.substring (String.length a) m (a +:+ b) = String.substring 0 m b.
Proof.
  induction a as [|c a IH]; [reflexivity|].
  rewrite append_cons. cbn [String.length String.substring]. exact IH.
Qed.

Lemma substring_prefix (a b : string) :
  String.substring 0 (String.length a) (a +:+ b) = a.
Proof.
  induction a as [|c a IH].
  - rewrite append_nil_l. destruct b; reflexivity.
  - rewrite append_cons. cbn [String.length String.substring]. rewrite IH. reflexivity.
Qed.

Lemma substring_append_l (s t : string) (n m : nat) :
  (n + m <= String.length s)%nat ->
  String.substring n m (s +:+ t) = String.substring n m s.
Proof.
  revert n m. induction s as [|c s IH]; intros n m Hlen.
  - cbn [String.length] in Hlen. assert (n = 0%nat) by lia. assert (m = 0%nat) by lia.
    subst. rewrite append_nil_l. destruct t; reflexivity.
  - rewrite append_cons. cbn [String.length] in Hlen.
    destruct n as [|n].
    + destruct m as [|m]; [reflexivity|].
      cbn [String.substring]. rewrite IH by lia. reflexivity.
    + cbn [String.substring]. apply IH. lia.
Qed.

Lemma slice_from_append (a b : string) :
  slice_from (a +:+ b) (Z.of_nat (String.length a)) = b.
Proof.
  unfold slice_from, slice. rewrite length_append, Nat2Z.id.
  replace (Z.to_nat (Z.of_nat (String.length a + String.length b)
                     - Z.of_nat (String.length a)))
    with (String.length b) by lia.
  rewrite substring_skip. apply substring_all.
Qed.

Lemma slice_from_zero (s : string) : slice_from s 0 = s.
Proof.
  unfold slice_from, slice. rewrite Z.sub_0_r, Nat2Z.id. apply substring_all.
Qed.

Lemma slice_to_append (a b : string) :
  slice_to (a +:+ b) (Z.of_nat (String.length a)) = a.
Proof.
  unfold slice_to, slice. rewrite Z.sub_0_r, Nat2Z.id. apply substring_prefix.
Qed.

(** *** basename *)

Lemma basename_no_slash (p : string) :
  occurs "/" p = false -> os_path.basename p = p.
Proof.
  intros Hno. unfold os_path.basename, rfind.
  rewrite rfind_from_absent by exact Hno. apply slice_from_zero.
Qed.

Lemma basename_after_slash (d b : string) :
  occurs "/" b = false -> os_path.basename (d +:+ String "/" b) = b.
Proof.
  intros Hb. unfold os_path.basename, rfind.
  rewrite rfind_from_last by exact Hb.
  replace (d +:+ String "/" b) with ((d +:+ "/") +:+ b)
    by (rewrite append_assoc; reflexivity).
  replace (0 + Z.of_nat (String.length d) + 1)
    with (Z.of_nat (String.length (d +:+ "/")))
    by (rewrite length_append; cbn [String.length]; lia).
  apply slice_from_append.
Qed.

(** A path is a directory part, empty or closed by a slash, and its
    basename, which has no slash. *)
Lemma basename_split (p : string) :
  exists d,
    p = d +:+ os_path.basename p
    /\ occurs "/" (os_path.basename p) = false
    /\ (d = EmptyString \/ exists d', d = d' +:+ "/").
Proof.
  destruct (occurs "/" p) eqn:Hocc.
  - destruct (occurs_last "/" p Hocc) as (d & b & -> & Hb).
    rewrite basename_after_slash by exact Hb.
    exists (d +:+ "/"). split; [rewrite append_assoc; reflexivity|].
    split; [exact Hb|]. right. exists d. reflexivity.
  - rewrite basename_no_slash by exact Hocc.
    exists EmptyString. split; [reflexivity|]. split; [exact Hocc|]. left. reflexivity.
Qed.

Lemma image_extension_no_slash (ext : string) :
  In ext image_extensions -> occurs "/" ext = false.
Proof.
  unfold image_extensions. cbn [In].
  intros [<-|[<-|[<-|[<-|[<-|[<-|[]]]]]]]; reflexivity.
Qed.

Lemma is_image_true (filename : string) :
  is_image filename = true
  <-> exists ext p, In ext image_extensions /\ lower filename = p +:+ ext.
Proof.
  unfold is_image. rewrite existsb_exists. split.
  - intros (ext & Hin & [p Hp]%endswith_spec). exists ext, p. split; assumption.
  - intros (ext & p & Hin & Hp). exists ext. split; [exact Hin|].
    apply endswith_spec. exists p. exact Hp.
Qed.

(** X4.  The scratch file of a key is [/tmp/] and the basename of the key:
    that name has no slash, and it is an image name exactly when the key is
    an image key. *)
Theorem scratch_name_of_key (file_key : string) :
  occurs "/" (os_path.basename file_key) = false
  /\ is_image (os_path.basename file_key) = is_image file_key.
Proof.
  destruct (basename_split file_key) as (d & Hsplit & Hname & Hdir).
  split; [exact Hname|].
  set (name := os_path.basename file_key) in *.
  destruct (is_image file_key) eqn:Hkey.
  - apply is_image_true in Hkey as (ext & p & Hin & Hp).
    apply is_image_true. exists ext.
    destruct Hdir as [->|[d' ->]].
    + rewrite append_nil_l in Hsplit. rewrite <- Hsplit. exists p. split; assumption.
    + rewrite Hsplit, append_assoc in Hp.
      change ("/" +:+ name) with (String "/" name) in Hp.
      rewrite lower_append in Hp. cbn [lower] in Hp.
      change (lower_char "/") with "/"%char in Hp.
      destruct (append_suffix_sep "/" (lower d') (lower name) p ext Hp
                  (image_extension_no_slash ext Hin)) as [q Hq].
      exists q. split; assumption.
  - destruct (is_image name) eqn:Hnm; [|reflexivity].
    apply is_image_true in Hnm as (ext & p & Hin & Hp).
    assert (Htrue : is_image file_key = true).
    { apply is_image_true. exists ext, (lower d +:+ p). split; [exact Hin|].
      rewrite Hsplit at 1. rewrite lower_append, Hp, append_assoc. reflexivity. }
    congruence.
Qed.

(** *** splitext *)

Lemma rfind_append_after (s t : string) (c : ascii) :
  occurs c t = true -> Z.of_nat (String.length s) <= rfind (s +:+ t) c.
Proof.
  intros Ht. destruct (occurs_last c t Ht) as (a & b & -> & Hb).
  unfold rfind. rewrite <- append_assoc, rfind_from_last by exact Hb.
  rewrite length_append. lia.
Qed.

(** [splitext] cuts a path in two; the second part is empty, or a dot and
    then neither dot nor slash. *)
Lemma splitext_split (p : string) :
  p = fst (os_path.splitext p) +:+ snd (os_path.splitext p)
  /\ (snd (os_path.splitext p) = EmptyString
      \/ exists b, snd (os_path.splitext p) = String "." b
                   /\ occurs "." b = false /\ occurs "/" b = false).
Proof.
  unfold os_path.splitext. cbv zeta.
  destruct (Z.ltb_spec (rfind p "/") (rfind p ".")) as [Hlt|Hge];
    [|cbn [fst snd]; rewrite append_nil_r; auto].
  destruct (all_dots _); [cbn [fst snd]; rewrite append_nil_r; auto|].
  cbn [fst snd].
  destruct (occurs "." p) eqn:Hdot.
  - destruct (occurs_last "." p Hdot) as (a & b & -> & Hb).
    assert (Hidx : rfind (a +:+ String "." b) "." = Z.of_nat (String.length a)).
    { unfold rfind. rewrite rfind_from_last by exact Hb. lia. }
    rewrite Hidx in *. rewrite slice_to_append, slice_from_append.
    split; [reflexivity|]. right. exists b. split; [reflexivity|].
    split; [exact Hb|].
    destruct (occurs "/" b) eqn:Hslash; [exfalso|reflexivity].
    pose proof (rfind_append_after (a +:+ ".") b "/" Hslash) as Hafter.
    rewrite append_assoc in Hafter. change ("." +:+ b) with (String "." b) in Hafter.
    rewrite length_append in Hafter. cbn [String.length] in Hafter. lia.
  - exfalso. pose proof (rfind_bounds p "/") as Hsep.
    unfold rfind in Hlt, Hsep.
    rewrite (rfind_from_absent p "." 0 (-1) Hdot) in Hlt. lia.
Qed.

(** The key of line 62 is not the key it is made from, and is no image key. *)
Lemma metadata_key_of_new (file_key : string) :
  metadata_key_of file_key <> file_key
  /\ is_image (metadata_key_of file_key) = false.
Proof.
  unfold metadata_key_of.
  destruct (splitext_split file_key) as [Hsplit Hext].
  set (root := fst (os_path.splitext file_key)) in *.
  set (ext := snd (os_path.splitext file_key)) in *.
  split.
  - intros Heq.
    assert (Hlen : String.length ext = 23%nat).
    { apply (f_equal String.length) in Heq.
      rewrite (f_equal String.length Hsplit) in Heq.
      rewrite !length_append in Heq. cbn [String.length] in Heq. lia. }
    destruct Hext as [Hnil|(b & Hb & Hnodot & _)].
    { rewrite Hnil in Hlen. discriminate Hlen. }
    rewrite Hsplit, Hb in Heq.
    replace ("metadata/" +:+ root +:+ "_metadata.json")
      with (("metadata/" +:+ root +:+ "_metadata") +:+ ".json") in Heq
      by (rewrite !append_assoc; reflexivity).
    replace (root +:+ String "." b) with ((root +:+ ".") +:+ b) in Heq
      by (rewrite append_assoc; reflexivity).
    symmetry in Heq.
    destruct (append_suffix _ _ _ _ Heq) as [q Hq].
    { rewrite Hb in Hlen. cbn [String.length] in Hlen |- *. lia. }
    rewrite Hq, occurs_append in Hnodot.
    change (occurs "." ".json") with true in Hnodot.
    rewrite orb_true_r in Hnodot. discriminate.
  - destruct (is_image _) eqn:Himage; [exfalso|reflexivity].
    apply is_image_true in Himage as (e & p & Hin & Hp).
    replace ("metadata/" +:+ root +:+ "_metadata.json")
      with (("metadata/" +:+ root) +:+ "_metadata.json") in Hp
      by (rewrite append_assoc; reflexivity).
    rewrite lower_append in Hp.
    change (lower "_metadata.json") with "_metadata.json" in Hp.
    destruct (append_suffix _ _ _ _ Hp) as [q Hq].
    { unfold image_extensions in Hin. cbn [In] in Hin.
      destruct Hin as [<-|[<-|[<-|[<-|[<-|[<-|[]]]]]]]; cbn; lia. }
    assert (Hends : existsb (endswith "_metadata.json") image_extensions = true).
    { apply existsb_exists. exists e. split; [exact Hin|].
      apply endswith_spec. exists q. exact Hq. }
    discriminate Hends.
Qed.

(** X5.  Line 62, key by key.  When the key is a stem, a dot, and then
    neither dot nor slash, the metadata key is made from the stem, unless
    the name of the stem is empty or nothing but dots, and then from the
    whole key; when the name of the key has no dot, it is made from the
    whole key. *)
Theorem metadata_key_strips_extension :
  (forall stem body : string,
      occurs "." body = false ->
      occurs "/" body = false ->
      metadata_key_of (stem +:+ "." +:+ body)
      = "metadata/"
        +:+ (if all_dots (os_path.basename stem)
             then stem +:+ "." +:+ body else stem)
        +:+ "_metadata.json")
  /\ (forall file_key : string,
         occurs "." (os_path.basename file_key) = false ->
         metadata_key_of file_key = "metadata/" +:+ file_key +:+ "_metadata.json").
Proof.
  split.
  - intros stem body Hdot Hslash. unfold metadata_key_of. f_equal. f_equal.
    change ("." +:+ body) with (String "." body).
    unfold os_path.splitext. cbv zeta.
    assert (Hidx : rfind (stem +:+ String "." body) "."
                   = Z.of_nat (String.length stem)).
    { unfold rfind. rewrite rfind_from_last by exact Hdot. lia. }
    assert (Hsep : rfind (stem +:+ String "." body) "/" = rfind stem "/").
    { unfold rfind. apply rfind_from_append_absent.
      cbn [occurs]. rewrite Hslash. reflexivity. }
    rewrite Hidx, Hsep.
    pose proof (rfind_bounds stem "/") as [Hlo Hhi].
    destruct (Z.ltb_spec (rfind stem "/") (Z.of_nat (String.length stem))); [|lia].
    assert (Hname : slice (stem +:+ String "." body) (rfind stem "/" + 1)
                      (Z.of_nat (String.length stem))
                    = os_path.basename stem).
    { unfold os_path.basename, slice_from, slice.
      apply substring_append_l. lia. }
    rewrite Hname.
    destruct (all_dots (os_path.basename stem)); [reflexivity|].
    cbn [fst]. apply slice_to_append.
  - intros file_key Hdot. unfold metadata_key_of. f_equal. f_equal.
    destruct (basename_split file_key) as (d & Hsplit & Hname & Hdir).
    set (name := os_path.basename file_key) in *.
    unfold os_path.splitext. cbv zeta.
    destruct (Z.ltb_spec (rfind file_key "/") (rfind file_key ".")) as [Hlt|];
      [exfalso|reflexivity].
    destruct Hdir as [->|[d' ->]].
    + rewrite append_nil_l in Hsplit. rewrite Hsplit in Hlt.
      unfold rfind in Hlt. rewrite !rfind_from_absent in Hlt by assumption. lia.
    + rewrite Hsplit, append_assoc in Hlt.
      change ("/" +:+ name) with (String "/" name) in Hlt.
      unfold rfind in Hlt.
      rewrite rfind_from_last in Hlt by exact Hname.
      rewrite rfind_from_append_absent in Hlt
        by (cbn [occurs]; rewrite Hdot; reflexivity).
      pose proof (rfind_bounds d' "."). unfold rfind in *. lia.
Qed.

(** ** The handler, run by run *)

Section MoreHandlerFacts.

Context (svc : Collaborators).

Implicit Types (w : World svc) (record : S3Event.EventRecord)
  (rest : list S3Event.EventRecord).


(** X7.  An event without records: the handler answers 500 with the
    message of the [IndexError], makes no call, and leaves the store and
    the scratch files as they were. *)
Theorem no_record_gives_500 w :
  let '(response, w') := lambda_handler svc {| S3Event.Records := [] |} w in
  statusCode response = 500
  /\ body response
     = json_dumps (JObj [ ("message", JStr "Error processing file");
                          ("error", JStr "list index out of range") ])
  /\ new_calls w w' = []
  /\ store w' = store w
  /\ files w' = files w
  /\ stdout w' = stdout w ++ ["Error processing file: list index out of range"].
Proof.
  rewrite lambda_handler_unfold, build_metadata_no_record.
  world_simpl. split; [reflexivity|]. split; [reflexivity|].
  split; [unfold new_calls; world_simpl; apply drop_all|].
  repeat split.
Qed.


End MoreHandlerFacts.

Section ImageFacts.

Context (svc : Collaborators).

Implicit Types (w : World svc) (record : S3Event.EventRecord)
  (rest : list S3Event.EventRecord).

(** X9.  An image key whose object downloads and opens, and whose scratch
    file [os.remove] lets go: with a head lookup and a put that return, the
    handler answers 200; the record is the nine fields and then
    [imageWidth], [imageHeight], [imageFormat] and [imageMode]; the calls
    are the head lookup, the download, the opening, the removal and the put;
    the scratch file is gone. *)
Theorem readable_image_is_measured record rest w (head : HeadResponse)
    (fileSizeReadable : string) (lastModified : datetime) (etag : string)
    (content : string) (img : PIL.Image) (st : Store svc) :
  let bucket_name := record_bucket record in
  let file_key := record_key record in
  let download_path := "/tmp/" +:+ os_path.basename file_key in
  is_image file_key = true ->
  head_object svc (store w) bucket_name file_key = Ok head ->
  format_bytes (record_size record) = Ok fileSizeReadable ->
  LastModified head = Some lastModified ->
  ETag head = Some etag ->
  get_object svc (store w) bucket_name file_key = Ok content ->
  image_open svc download_path content = Ok img ->
  unlink svc download_path = Ok tt ->
  let metadata :=
    new_metadata file_key bucket_name (record_size record) fileSizeReadable
      (get_default (ContentType head) "unknown") (isoformat lastModified) etag
      (isoformat (utcnow w))
    ++ [ ("imageWidth", JInt (PIL.width img));
         ("imageHeight", JInt (PIL.height img));
         ("imageFormat", json_of_option (PIL.format img));
         ("imageMode", JStr (PIL.mode img)) ] in
  let Body := json_dumps_indent (JObj metadata) 2 in
  put_object svc (store w) bucket_name (metadata_key_of file_key) Body
    "application/json" = Ok st ->
  let '(response, w') := lambda_handler svc (event_of record rest) w in
  statusCode response = 200
  /\ body response = success_body metadata
  /\ new_calls w w'
     = [ HeadObject bucket_name file_key;
         DownloadFile bucket_name file_key download_path;
         ImageOpen download_path;
         OsRemove download_path;
         PutObject bucket_name (metadata_key_of file_key) Body "application/json" ]
  /\ store w' = st
  /\ files w' = delete download_path (files w).
Proof.
  intros bucket_name file_key download_path Himage Hhead Hsize Hlm Hetag Hget Hopen
    Hunlink metadata Body Hput.
  rewrite lambda_handler_unfold. unfold event_of.
  rewrite build_metadata_unfold. cbv zeta.
  fold (record_bucket record) (record_key record) (record_size record).
  fold bucket_name file_key.
  rewrite Hhead, Hsize, Hlm, Hetag, Himage. cbn [getitem].
  rewrite image_step_unfold. cbv zeta. fold download_path.
  change (store (after_head svc bucket_name file_key w)) with (store w).
  rewrite Hget, Hopen, Hunlink.
  change (with_image_fields _ img) with metadata. fold Body.
  world_simpl. rewrite Hput. world_simpl.
  split; [reflexivity|]. split; [reflexivity|]. split; [trace_simpl|].
  split; [reflexivity|]. apply delete_insert_eq.
Qed.

(** X10.  The scratch file of an image key, once the head lookup has
    returned and the nine fields are there.  When the download raises, the
    scratch files are as they were; when [Image.open] raises, the downloaded
    file stays where it was written; when both return, it is removed if
    [os.remove] lets it go, and stays if [os.remove] raises. *)
Theorem scratch_file_fate record rest w (head : HeadResponse)
    (fileSizeReadable : string) (lastModified : datetime) (etag : string) :
  let bucket_name := record_bucket record in
  let file_key := record_key record in
  let download_path := "/tmp/" +:+ os_path.basename file_key in
  is_image file_key = true ->
  head_object svc (store w) bucket_name file_key = Ok head ->
  format_bytes (record_size record) = Ok fileSizeReadable ->
  LastModified head = Some lastModified ->
  ETag head = Some etag ->
  let '(response, w') := lambda_handler svc (event_of record rest) w in
  files w'
  = match get_object svc (store w) bucket_name file_key with
    | inl _ => files w
    | inr content =>
        match image_open svc download_path content with
        | inl _ => <[download_path := content]> (files w)
        | inr _ =>
            match unlink svc download_path with
            | inl _ => <[download_path := content]> (files w)
            | inr _ => delete download_path (files w)
            end
        end
    end.
Proof.
  intros bucket_name file_key download_path Himage Hhead Hsize Hlm Hetag.
  rewrite lambda_handler_unfold. unfold event_of.
  rewrite build_metadata_unfold. cbv zeta.
  fold (record_bucket record) (record_key record) (record_size record).
  fold bucket_name file_key.
  rewrite Hhead, Hsize, Hlm, Hetag, Himage. cbn [getitem].
  rewrite image_step_unfold. cbv zeta. fold download_path.
  change (store (after_head svc bucket_name file_key w)) with (store w).
  destruct (get_object svc (store w) bucket_name file_key) as [e|content].
  { destruct (put_object svc _ bucket_name _ _ _); reflexivity. }
  destruct (image_open svc download_path content) as [e|img].
  { destruct (put_object svc _ bucket_name _ _ _); reflexivity. }
  destruct (unlink svc download_path).
  { destruct (put_object svc _ bucket_name _ _ _); reflexivity. }
  destruct (put_object svc _ bucket_name _ _ _); world_simpl; apply delete_insert_eq.
Qed.

(** X11.  The calls of an invocation with a first record, in their order:
    the head lookup; then, for an image key only, the download, the opening
    and the removal, as far as they went; then at most one put, under the
    metadata key. *)
Theorem calls_in_order record rest w :
  let bucket_name := record_bucket record in
  let file_key := record_key record in
  let download_path := "/tmp/" +:+ os_path.basename file_key in
  let '(response, w') := lambda_handler svc (event_of record rest) w in
  exists image_calls put_calls,
    new_calls w w' = HeadObject bucket_name file_key :: image_calls ++ put_calls
    /\ (image_calls = []
        \/ is_image file_key = true
           /\ (image_calls = [DownloadFile bucket_name file_key download_path]
               \/ image_calls = [DownloadFile bucket_name file_key download_path;
                                 ImageOpen download_path]
               \/ image_calls = [DownloadFile bucket_name file_key download_path;
                                 ImageOpen download_path;
                                 OsRemove download_path]))
    /\ (put_calls = []
        \/ exists Body,
             put_calls = [PutObject bucket_name (metadata_key_of file_key) Body
                            "application/json"]).
Proof.
  intros bucket_name file_key download_path.
  rewrite lambda_handler_unfold. unfold event_of.
  rewrite build_metadata_unfold. cbv zeta.
  fold (record_bucket record) (record_key record) (record_size record).
  fold bucket_name file_key.
  assert (Hstop : forall e,
             let '(response, w') :=
               error_response svc e (after_head svc bucket_name file_key w) in
             exists image_calls put_calls,
               new_calls w w' = HeadObject bucket_name file_key :: image_calls ++ put_calls
               /\ (image_calls = []
                   \/ is_image file_key = true
                      /\ (image_calls = [DownloadFile bucket_name file_key download_path]
                          \/ image_calls = [DownloadFile bucket_name file_key download_path;
                                            ImageOpen download_path]
                          \/ image_calls = [DownloadFile bucket_name file_key download_path;
                                            ImageOpen download_path;
                                            OsRemove download_path]))
               /\ (put_calls = []
                   \/ exists Body,
                        put_calls = [PutObject bucket_name (metadata_key_of file_key)
                                       Body "application/json"])).
  { intros e. exists [], []. split; [trace_simpl|]. split; left; reflexivity. }
  destruct (head_object svc (store w) bucket_name file_key) as [e|head]; [apply Hstop|].
  destruct (format_bytes _) as [e|fileSizeReadable]; [apply Hstop|].
  destruct (getitem "LastModified" _) as [e|lastModified]; [apply Hstop|].
  destruct (getitem "ETag" _) as [e|etag]; [apply Hstop|].
  clear Hstop.
  destruct (is_image file_key) eqn:Himage.
  - rewrite image_step_unfold. cbv zeta. fold download_path.
    destruct (get_object svc _ bucket_name file_key) as [e|content].
    { destruct (put_object svc _ bucket_name _ _ _);
        (eexists [DownloadFile bucket_name file_key download_path], [_]);
        (split; [trace_simpl|]); (split; [right; split; [reflexivity|]; left; reflexivity|]);
        right; eexists; reflexivity. }
    destruct (image_open svc download_path content) as [e|img].
    { destruct (put_object svc _ bucket_name _ _ _);
        (eexists [DownloadFile bucket_name file_key download_path;
                  ImageOpen download_path], [_]);
        (split; [trace_simpl|]);
        (split; [right; split; [reflexivity|]; right; left; reflexivity|]);
        right; eexists; reflexivity. }
    destruct (unlink svc download_path);
      destruct (put_object svc _ bucket_name _ _ _);
      (eexists [DownloadFile bucket_name file_key download_path;
                ImageOpen download_path; OsRemove download_path], [_]);
      (split; [trace_simpl|]);
      (split; [right; split; [reflexivity|]; right; right; reflexivity|]);
      right; eexists; reflexivity.
  - destruct (put_object svc _ bucket_name _ _ _);
      (eexists [], [_]); (split; [trace_simpl|]); (split; [left; reflexivity|]);
      right; eexists; reflexivity.
Qed.

End ImageFacts.

Section ShapeFacts.

Context (svc : Collaborators).

Implicit Types (w : World svc) (record : S3Event.EventRecord)
  (rest : list S3Event.EventRecord).

(** X12.  The record that is built: the nine fields of lines 27-37 in
    their order, with the values of the event, of the head response and of
    the clock, and after them nothing for a key that is no image; for an
    image key, [imageError], or the four image fields, or the four image
    fields and then [imageError]. *)
Theorem record_shape record rest w (bucket_name file_key : string)
    (metadata : dict) (w1 : World svc) :
  build_metadata svc (event_of record rest) w
    = (Ok (bucket_name, file_key, metadata), w1) ->
  exists head fileSizeReadable lastModified etag tail,
    head_object svc (store w) (record_bucket record) (record_key record) = Ok head
    /\ format_bytes (record_size record) = Ok fileSizeReadable
    /\ LastModified head = Some lastModified
    /\ ETag head = Some etag
    /\ metadata
       = [ ("fileName", JStr (record_key record));
           ("bucketName", JStr (record_bucket record));
           ("fileSize", JInt (record_size record));
           ("fileSizeReadable", JStr fileSizeReadable);
           ("contentType", JStr (get_default (ContentType head) "unknown"));
           ("lastModified", JStr (isoformat lastModified));
           ("etag", JStr etag);
           ("uploadTime", JStr (isoformat (utcnow w)));
           ("processedBy", JStr "AWS Lambda") ] ++ tail
    /\ (is_image (record_key record) = false /\ tail = []
        \/ is_image (record_key record) = true
           /\ ((exists img_error, tail = [("imageError", JStr (str_exn img_error))])
               \/ (exists img,
                      tail = [ ("imageWidth", JInt (PIL.width img));
                               ("imageHeight", JInt (PIL.height img));
                               ("imageFormat", json_of_option (PIL.format img));
                               ("imageMode", JStr (PIL.mode img)) ])
               \/ exists img img_error,
                    tail = [ ("imageWidth", JInt (PIL.width img));
                             ("imageHeight", JInt (PIL.height img));
                             ("imageFormat", json_of_option (PIL.format img));
                             ("imageMode", JStr (PIL.mode img));
                             ("imageError", JStr (str_exn img_error)) ])).
Proof.
  intros Hbuild.
  destruct (build_metadata_ok_inv svc _ _ _ _ _ _ _ Hbuild)
    as (-> & -> & head & readable & lm & etag & Hhead & Hsize & Hlm & Hetag & ->).
  exists head, readable, lm, etag.
  unfold finished_metadata, image_result.
  destruct (is_image (record_key record)).
  - destruct (get_object svc (store w) _ _) as [e|content].
    { eexists. repeat (split; [eassumption|]). split; [reflexivity|].
      right. split; [reflexivity|]. left. exists e. reflexivity. }
    destruct (image_open svc _ content) as [e|img].
    { eexists. repeat (split; [eassumption|]). split; [reflexivity|].
      right. split; [reflexivity|]. left. exists e. reflexivity. }
    destruct (unlink svc _) as [e|[]].
    { eexists. repeat (split; [eassumption|]). split; [reflexivity|].
      right. split; [reflexivity|]. right. right. exists img, e. reflexivity. }
    eexists. repeat (split; [eassumption|]). split; [reflexivity|].
    right. split; [reflexivity|]. right. left. exists img. reflexivity.
  - exists []. repeat (split; [eassumption|]). split; [reflexivity|].
    left. split; reflexivity.
Qed.

(** X6.  Whatever the handler puts, it puts in the bucket of the event,
    under the metadata key, which is not the key of the event and is no
    image key. *)
Theorem put_key_is_new record rest w :
  let '(response, w') := lambda_handler svc (event_of record rest) w in
  forall B K Content T,
    In (PutObject B K Content T) (new_calls w w') ->
    B = record_bucket record
    /\ K = metadata_key_of (record_key record)
    /\ K <> record_key record
    /\ is_image K = false.
Proof.
  pose proof (lambda_handler_puts svc record rest w) as Hputs.
  destruct (lambda_handler svc (event_of record rest) w) as [response w'].
  intros B K Content T Hin.
  apply Hputs in Hin as (metadata & w1 & _ & -> & -> & _ & _).
  split; [reflexivity|]. split; [reflexivity|].
  apply metadata_key_of_new.
Qed.

End ShapeFacts.


(** ** The further properties on the store in memory *)


(** X1 at -5 bytes. *)
Lemma format_bytes_below_1024_witness :
  - 2 ^ 53 < -5 < 1024 /\ format_bytes (-5) = Ok ((str_int (-5) +:+ ".00") +:+ " B").
Proof.
  assert (H : - 2 ^ 53 < -5 < 1024) by (split; reflexivity).
  split; [exact H|exact (format_bytes_below_1024 (-5) H)].
Defined.

(** X2 at 1536 bytes, one and a half KB. *)
Lemma format_bytes_exact_witness :
  format_bytes 1536
  = Ok (show_hundredths (div_half_even (1536 * 100) (1024 ^ 1))
        +:+ " " +:+ nth (Z.to_nat 1) ["B"; "KB"; "MB"; "GB"; "TB"; "PB"] "").
Proof.
  apply (format_bytes_exact 1536 1).
  - split; [discriminate|reflexivity].
  - split; discriminate.
  - right. discriminate.
  - right. reflexivity.
Defined.

(** X3 at 2^1024 bytes. *)
Lemma format_bytes_overflow_witness :
  format_bytes (2 ^ 1024) = Raise (OverflowError "int too large to convert to float").
Proof.
  apply (format_bytes_overflow (2 ^ 1024)); [discriminate|].
  vm_compute. discriminate.
Defined.

(** X5 at [docs/report.pdf]. *)
Lemma metadata_key_strips_extension_witness :
  metadata_key_of ("docs/report" +:+ "." +:+ "pdf")
  = "metadata/"
    +:+ (if all_dots (os_path.basename "docs/report")
         then "docs/report" +:+ "." +:+ "pdf" else "docs/report")
    +:+ "_metadata.json".
Proof.
  apply (proj1 metadata_key_strips_extension "docs/report" "pdf"); reflexivity.
Defined.

(** X9 on a store that holds the picture. *)
Lemma readable_image_is_measured_witness :
  let img := {| PIL.width := 640; PIL.height := 480;
                PIL.format := Some "PNG"; PIL.mode := "RGB" |} in
  let metadata :=
    new_metadata "photos/cat.jpg" "uploads" 15 "15.00 B" "unknown"
      "2024-04-30T09:15:00+00:00" "0123456789abcdef" "2024-05-01T12:00:00.000123"
    ++ [ ("imageWidth", JInt 640); ("imageHeight", JInt 480);
         ("imageFormat", JStr "PNG"); ("imageMode", JStr "RGB") ] in
  let Body := json_dumps_indent (JObj metadata) 2 in
  is_image "photos/cat.jpg" = true
  /\ image_open Memory.service "/tmp/cat.jpg" Memory.sample_png = Ok img
  /\ unlink Memory.service "/tmp/cat.jpg" = Ok tt
  /\ let '(response, w') :=
       lambda_handler Memory.service (event_of Memory.cat []) Memory.with_cat in
     statusCode response = 200
     /\ body response = success_body metadata
     /\ new_calls Memory.with_cat w'
        = [ HeadObject "uploads" "photos/cat.jpg";
            DownloadFile "uploads" "photos/cat.jpg" "/tmp/cat.jpg";
            ImageOpen "/tmp/cat.jpg";
            OsRemove "/tmp/cat.jpg";
            PutObject "uploads" "metadata/photos/cat_metadata.json" Body
              "application/json" ]
     /\ store w'
        = Memory.put (store Memory.with_cat) "uploads"
            "metadata/photos/cat_metadata.json" Body "application/json"
     /\ files w' = delete "/tmp/cat.jpg" (files Memory.with_cat).
Proof.
  intros img metadata Body.
  assert (Hsize : format_bytes 15 = Ok "15.00 B") by (vm_compute; reflexivity).
  assert (Hget : get_object Memory.service (store Memory.with_cat)
                   "uploads" "photos/cat.jpg" = Ok Memory.sample_png)
    by (vm_compute; reflexivity).
  assert (Hopen : image_open Memory.service "/tmp/cat.jpg" Memory.sample_png = Ok img)
    by (vm_compute; reflexivity).
  split; [reflexivity|]. split; [exact Hopen|]. split; [reflexivity|].
  exact (readable_image_is_measured Memory.service Memory.cat [] Memory.with_cat
           (Memory.Head (Memory.uploaded Memory.sample_png None))
           "15.00 B" {| isoformat := "2024-04-30T09:15:00+00:00" |}
           "0123456789abcdef" Memory.sample_png img
           (Memory.put (store Memory.with_cat) "uploads"
              "metadata/photos/cat_metadata.json" Body "application/json")
           eq_refl eq_refl Hsize eq_refl eq_refl Hget Hopen eq_refl eq_refl).
Defined.

(** X10 on a store whose picture is no picture: the file stays. *)
Lemma scratch_file_fate_witness :
  is_image "photos/cat.jpg" = true
  /\ let '(response, w') :=
       lambda_handler Memory.service (event_of Memory.cat []) Memory.with_broken_cat in
     files w'
     = match get_object Memory.service (store Memory.with_broken_cat)
               "uploads" "photos/cat.jpg" with
       | inl _ => files Memory.with_broken_cat
       | inr content =>
           match image_open Memory.service "/tmp/cat.jpg" content with
           | inl _ => <["/tmp/cat.jpg" := content]> (files Memory.with_broken_cat)
           | inr _ =>
               match unlink Memory.service "/tmp/cat.jpg" with
               | inl _ => <["/tmp/cat.jpg" := content]> (files Memory.with_broken_cat)
               | inr _ => delete "/tmp/cat.jpg" (files Memory.with_broken_cat)
               end
           end
       end.
Proof.
  assert (Hsize : format_bytes 15 = Ok "15.00 B") by (vm_compute; reflexivity).
  split; [reflexivity|].
  exact (scratch_file_fate Memory.service Memory.cat [] Memory.with_broken_cat
           (Memory.Head (Memory.uploaded "not a picture" None))
           "15.00 B" {| isoformat := "2024-04-30T09:15:00+00:00" |}
           "0123456789abcdef" eq_refl eq_refl Hsize eq_refl eq_refl).
Defined.

(** X12 on a store that holds the report. *)
Lemma record_shape_witness :
  exists metadata w1,
    build_metadata Memory.service (event_of Memory.report []) Memory.with_report
      = (Ok ("uploads", "docs/report.pdf", metadata), w1)
    /\ exists tail,
         metadata
         = new_metadata "docs/report.pdf" "uploads" 2048 "2.00 KB" "application/pdf"
             "2024-04-30T09:15:00+00:00" "0123456789abcdef"
             "2024-05-01T12:00:00.000123" ++ tail.
Proof.
  assert (Hsize : format_bytes 2048 = Ok "2.00 KB") by (vm_compute; reflexivity).
  destruct (build_metadata_ok Memory.service Memory.report [] Memory.with_report
              (Memory.Head (Memory.uploaded "%PDF-1.7" (Some "application/pdf")))
              "2.00 KB" {| isoformat := "2024-04-30T09:15:00+00:00" |}
              "0123456789abcdef" eq_refl Hsize eq_refl eq_refl) as (w1 & Hbuild & _).
  eexists _, w1. split; [exact Hbuild|].
  destruct (record_shape Memory.service Memory.report [] Memory.with_report
              _ _ _ _ Hbuild)
    as (head & readable & lm & etag & tail & Hhead & Hsz & Hlm & Hetag & Hm & _).
  exists tail. rewrite Hm.
  change (record_size Memory.report) with 2048 in Hsz.
  rewrite Hsize in Hsz. injection Hsz as <-.
  vm_compute in Hhead. injection Hhead as <-.
  injection Hlm as <-. injection Hetag as <-. reflexivity.
Defined.

(** X6 on a store that holds the report. *)
Lemma put_key_is_new_witness :
  let '(response, w') :=
    lambda_handler Memory.service (event_of Memory.report []) Memory.with_report in
  forall B K Content T,
    In (PutObject B K Content T) (new_calls Memory.with_report w') ->
    B = "uploads"
    /\ K = "metadata/docs/report_metadata.json"
    /\ K <> "docs/report.pdf"
    /\ is_image K = false.
Proof.
  exact (put_key_is_new Memory.service Memory.report [] Memory.with_report).
Defined.
